(** * Credential verification, sessions and role guards of the school ERP server

    A shallow embedding of
    - the authentication module ([src/server/db.ts], imported by the routes
      as [./auth]): [hashPassword], [comparePasswords], the local strategy,
      [serializeUser] / [deserializeUser], and the routes [/api/register],
      [/api/login], [/api/logout], [/api/user];
    - the guards [isAuthenticated], [hasRole], [validateBody] and the user,
      enrollment, grade and submission routes of the route module
      ([src/unnamed/part_007]);
    - the in-memory store [MemStorage] ([src/unnamed/part_008]) over the
      records of the schema ([src/unnamed/part_001]).

    Node's [crypto] and [Buffer], [express-session] with [memorystore], and
    [passport] (0.6, whose [req.logout] takes a callback) are libraries: they
    are modelled by their documented behaviour, next to the call sites that
    rely on it. Strings are sequences of 8-bit characters; clock values and
    random draws are binary naturals, ids are counters. A call of the
    transition system is one request served to its end; two
    registrations that overlap at the [await] of scrypt are modelled
    apart, by [registerOverlapping]. *)

From Stdlib Require Import List String Ascii Bool Arith NArith ZArith Lia.
From Stdlib Require Import Sorted Permutation.
From Stdlib.Strings Require Import Byte.
From Stdlib Require DecimalString.
Import ListNotations.
Open Scope string_scope.

Set Implicit Arguments.

(** ** JavaScript results: a value, or a thrown exception *)

Inductive JsError : Type :=
| ERR_INVALID_ARG_TYPE                 (* TypeError: argument of the wrong type *)
| ERR_CRYPTO_TIMING_SAFE_EQUAL_LENGTH. (* RangeError: byte lengths differ *)

Inductive Result (A : Type) : Type :=
| Ok (a : A)
| Throw (e : JsError).

Arguments Ok {A} a.
Arguments Throw {A} e.

Definition bind {A B : Type} (m : Result A) (k : A -> Result B) : Result B :=
  match m with
  | Ok a => k a
  | Throw e => Throw e
  end.

Notation "'await' x <- m ;; k" := (bind m (fun x => k))
  (at level 61, x name, m at next level, right associativity).

(** ** Strings, buffers and hexadecimal *)

Module Hex.

Definition digits : list ascii :=
  list_ascii_of_string "0123456789abcdef".

Definition digit (n : N) : ascii := nth (N.to_nat n) digits "0"%char.

(** [buf.toString("hex")] for one byte: two lower-case digits. *)
Definition ofByte (b : byte) : string :=
  let n := Byte.to_N b in
  String (digit (n / 16)) (String (digit (n mod 16)) EmptyString).

(** [buf.toString("hex")]. *)
Fixpoint encode (bs : list byte) : string :=
  match bs with
  | [] => EmptyString
  | b :: rest => ofByte b ++ encode rest
  end.

(** Value of one hexadecimal digit; both cases are accepted. *)
Definition unhex (c : ascii) : option N :=
  let n := N_of_ascii c in
  if ((48 <=? n) && (n <=? 57))%N then Some (n - 48)%N
  else if ((97 <=? n) && (n <=? 102))%N then Some (n - 87)%N
  else if ((65 <=? n) && (n <=? 70))%N then Some (n - 55)%N
  else None.

(** [Buffer.from(s, "hex")]: pairs of digits are decoded from the left;
    decoding stops at the first pair that is not hexadecimal, and a
    trailing odd digit is dropped. It never throws on a string. *)
Fixpoint decode (s : string) : list byte :=
  match s with
  | String c1 (String c2 rest) =>
      match unhex c1, unhex c2 with
      | Some hi, Some lo =>
          match Byte.of_N (16 * hi + lo) with
          | Some b => b :: decode rest
          | None => []
          end
      | _, _ => []
      end
  | _ => []
  end.

Definition isDigit (c : ascii) : bool :=
  match unhex c with Some _ => true | None => false end.

Fixpoint isHex (s : string) : bool :=
  match s with
  | EmptyString => true
  | String c rest => isDigit c && isHex rest
  end.

End Hex.

(** [s.split(sep)] for a one-character separator: never empty. *)
Fixpoint split (sep : ascii) (s : string) : list string :=
  match s with
  | EmptyString => [EmptyString]
  | String c rest =>
      if Ascii.eqb c sep then EmptyString :: split sep rest
      else match split sep rest with
           | [] => [String c EmptyString]
           | part :: parts => String c part :: parts
           end
  end.

Fixpoint occurs (c : ascii) (s : string) : bool :=
  match s with
  | EmptyString => false
  | String d rest => Ascii.eqb d c || occurs c rest
  end.

Definition Buffer : Type := list byte.

Definition byte_eqb (a b : byte) : bool := Byte.eqb a b.

Fixpoint buffer_eqb (a b : Buffer) : bool :=
  match a, b with
  | [], [] => true
  | x :: a', y :: b' => byte_eqb x y && buffer_eqb a' b'
  | _, _ => false
  end.

(** [Buffer.from(value, "hex")] where [value] may be [undefined] (a
    destructured array element that is absent). *)
Definition Buffer_from_hex (value : option string) : Result Buffer :=
  match value with
  | Some s => Ok (Hex.decode s)
  | None => Throw ERR_INVALID_ARG_TYPE
  end.

(** [crypto.timingSafeEqual(a, b)]: throws when the byte lengths differ. *)
Definition timingSafeEqual (a b : Buffer) : Result bool :=
  if Nat.eqb (List.length a) (List.length b) then Ok (buffer_eqb a b)
  else Throw ERR_CRYPTO_TIMING_SAFE_EQUAL_LENGTH.

(** The operating system's random source, as the bytes it will deliver. *)
Definition Entropy : Type := nat -> byte.

(** [crypto.randomBytes(n)]. *)
Definition randomBytes (n : nat) (e : Entropy) : Buffer := map e (seq 0 n).

(** ** Password hasher ([src/server/db.ts]) *)

Section PasswordHasher.

(** scrypt's output for a password and a salt is the prefix of the
    requested length of a key stream (its last step is PBKDF2, whose
    output blocks are concatenated and cut at [keylen]). The stream is
    the one thing left abstract. *)
Variable scrypt_stream : string -> string -> nat -> byte.

Definition scrypt (password salt : string) (keylen : nat) : Buffer :=
  map (scrypt_stream password salt) (seq 0 keylen).

(** [scryptAsync(password, salt, keylen)]: the salt must be a string or a
    buffer; [undefined] is rejected with a TypeError. *)
Definition scryptAsync (password : string) (salt : option string)
    (keylen : nat) : Result Buffer :=
  match salt with
  | Some s => Ok (scrypt password s keylen)
  | None => Throw ERR_INVALID_ARG_TYPE
  end.

Definition hashPassword (e : Entropy) (password : string) : string :=
  let salt := Hex.encode (randomBytes 16 e) in
  let buf := scrypt password salt 64 in
  Hex.encode buf ++ "." ++ salt.

Definition comparePasswords (supplied stored : string) : Result bool :=
  let parts := split "." stored in
  let hashed := nth_error parts 0 in
  let salt := nth_error parts 1 in
  await hashedBuf <- Buffer_from_hex hashed ;;
  await suppliedBuf <- scryptAsync supplied salt 64 ;;
  timingSafeEqual hashedBuf suppliedBuf.

End PasswordHasher.

(** ** Schema ([src/unnamed/part_001]) *)

Module User.
Record t : Type := mk {
  id : nat;
  username : string;
  password : string;
  firstName : string;
  lastName : string;
  email : string;
  role : string;
  avatarUrl : option string;
  createdAt : N
}.
End User.

Module InsertUser.
Record t : Type := mk {
  username : string;
  password : string;
  firstName : string;
  lastName : string;
  email : string;
  role : string;
  avatarUrl : option string
}.
End InsertUser.

(** [Partial<InsertUser>]: every key may be absent. *)
Module PartialUser.
Record t : Type := mk {
  username : option string;
  password : option string;
  firstName : option string;
  lastName : option string;
  email : option string;
  role : option string;
  avatarUrl : option (option string)
}.
End PartialUser.

Module Student.
Record t : Type := mk {
  id : nat;
  userId : nat;
  studentId : string;
  grade : string;
  dateEnrolled : N;
  status : string;
  parentName : option string;
  parentEmail : option string;
  parentPhone : option string;
  address : option string
}.
End Student.

Module InsertStudent.
Record t : Type := mk {
  userId : nat;
  studentId : string;
  grade : string;
  dateEnrolled : N;
  status : string;
  parentName : option string;
  parentEmail : option string;
  parentPhone : option string;
  address : option string
}.
End InsertStudent.

Inductive MetaValue : Type :=
| MNum (n : nat)
| MStr (s : string).

Module InsertActivity.
Record t : Type := mk {
  userId : nat;
  activityType : string;
  description : string;
  metadata : list (string * MetaValue)
}.
End InsertActivity.

Module Activity.
Record t : Type := mk {
  id : nat;
  userId : nat;
  activityType : string;
  description : string;
  metadata : list (string * MetaValue);
  timestamp : N
}.
End Activity.

(** ** In-memory store ([src/unnamed/part_008]) *)

(** A JavaScript [Map<number, V>]: entries in insertion order; [set] on a
    key that is present replaces the value in place. *)
Section JsMap.

Variable V : Type.

Definition JsMap : Type := list (nat * V).

Fixpoint map_get (k : nat) (m : JsMap) : option V :=
  match m with
  | [] => None
  | (k', v) :: rest => if Nat.eqb k k' then Some v else map_get k rest
  end.

Fixpoint map_set (k : nat) (v : V) (m : JsMap) : JsMap :=
  match m with
  | [] => [(k, v)]
  | (k', v') :: rest =>
      if Nat.eqb k k' then (k, v) :: rest else (k', v') :: map_set k v rest
  end.

Definition map_values (m : JsMap) : list V := map snd m.

End JsMap.

(** One record of the session store: what [passport.serializeUser] put
    under [session.passport.user], and when the record expires. *)
Record SessionRecord : Type := mkSession {
  passport_user : option nat;
  expires : N
}.

(** The session store ([memorystore]), keyed by session id. *)
Definition SessionStore : Type := list (string * SessionRecord).

Fixpoint store_get (sid : string) (s : SessionStore) : option SessionRecord :=
  match s with
  | [] => None
  | (k, r) :: rest => if String.eqb sid k then Some r else store_get sid rest
  end.

Definition store_destroy (sid : string) (s : SessionStore) : SessionStore :=
  filter (fun kr => negb (String.eqb sid (fst kr))) s.

Definition store_set (sid : string) (r : SessionRecord) (s : SessionStore)
    : SessionStore :=
  (sid, r) :: store_destroy sid s.

(** The fields of [MemStorage] that the authentication code and the user
    routes read or write. *)
Record MemStorage : Type := mkStorage {
  users : JsMap User.t;
  students : JsMap Student.t;
  activities : JsMap Activity.t;
  currentUserId : nat;
  currentStudentId : nat;
  currentActivityId : nat;
  sessionStore : SessionStore
}.

(** [new MemStorage()]. *)
Definition newMemStorage : MemStorage :=
  {| users := []; students := []; activities := [];
     currentUserId := 1; currentStudentId := 1; currentActivityId := 1;
     sessionStore := [] |}.

Definition getUser (st : MemStorage) (id : nat) : option User.t :=
  map_get id (users st).

Definition getUserByUsername (st : MemStorage) (username : string)
    : option User.t :=
  find (fun user => String.eqb (User.username user) username)
       (map_values (users st)).

Definition createUser (now : N) (st : MemStorage) (insertUser : InsertUser.t)
    : MemStorage * User.t :=
  let id := currentUserId st in
  let user :=
    {| User.id := id;
       User.username := InsertUser.username insertUser;
       User.password := InsertUser.password insertUser;
       User.firstName := InsertUser.firstName insertUser;
       User.lastName := InsertUser.lastName insertUser;
       User.email := InsertUser.email insertUser;
       User.role := InsertUser.role insertUser;
       User.avatarUrl := InsertUser.avatarUrl insertUser;
       User.createdAt := now |} in
  ({| users := map_set id user (users st);
      students := students st;
      activities := activities st;
      currentUserId := S id;
      currentStudentId := currentStudentId st;
      currentActivityId := currentActivityId st;
      sessionStore := sessionStore st |}, user).

Definition or_else {A : Type} (o : option A) (d : A) : A :=
  match o with Some a => a | None => d end.

(** [{ ...user, ...userData }] for a [userData] that has just the keys of
    its declared type, [Partial<InsertUser>]. *)
Definition mergeUser (user : User.t) (userData : PartialUser.t) : User.t :=
  {| User.id := User.id user;
     User.username := or_else (PartialUser.username userData) (User.username user);
     User.password := or_else (PartialUser.password userData) (User.password user);
     User.firstName := or_else (PartialUser.firstName userData) (User.firstName user);
     User.lastName := or_else (PartialUser.lastName userData) (User.lastName user);
     User.email := or_else (PartialUser.email userData) (User.email user);
     User.role := or_else (PartialUser.role userData) (User.role user);
     User.avatarUrl := or_else (PartialUser.avatarUrl userData) (User.avatarUrl user);
     User.createdAt := User.createdAt user |}.

(** What [updateUser] is handed at run time is an object: the type
    [Partial<InsertUser>] is not checked, and beside its keys the object
    may carry the two other keys of a user, [id] and [createdAt]. (Every
    value is taken to have the type of its key.) *)
Record PatchBody : Type := mkPatchBody {
  patch_user : PartialUser.t;
  patch_id : option nat;
  patch_createdAt : option N
}.

(** [{ ...user, ...userData }] for such an object: its [id] and
    [createdAt] go over the stored ones like every other key. *)
Definition spreadBody (user : User.t) (userData : PatchBody) : User.t :=
  let merged := mergeUser user (patch_user userData) in
  {| User.id := or_else (patch_id userData) (User.id merged);
     User.username := User.username merged;
     User.password := User.password merged;
     User.firstName := User.firstName merged;
     User.lastName := User.lastName merged;
     User.email := User.email merged;
     User.role := User.role merged;
     User.avatarUrl := User.avatarUrl merged;
     User.createdAt := or_else (patch_createdAt userData)
                               (User.createdAt merged) |}.

(** [storage.updateUser(id, userData)] on the object it is handed. *)
Definition updateUserWith (st : MemStorage) (id : nat) (userData : PatchBody)
    : MemStorage * option User.t :=
  match map_get id (users st) with
  | None => (st, None)
  | Some user =>
      let updatedUser := spreadBody user userData in
      ({| users := map_set id updatedUser (users st);
          students := students st;
          activities := activities st;
          currentUserId := currentUserId st;
          currentStudentId := currentStudentId st;
          currentActivityId := currentActivityId st;
          sessionStore := sessionStore st |}, Some updatedUser)
  end.

(** An object that has just the keys of [Partial<InsertUser>]. *)
Definition typed (userData : PartialUser.t) : PatchBody :=
  {| patch_user := userData; patch_id := None; patch_createdAt := None |}.

(** [storage.updateUser(id, userData)] with a [userData] of its declared
    type. *)
Definition updateUser (st : MemStorage) (id : nat) (userData : PartialUser.t)
    : MemStorage * option User.t :=
  updateUserWith st id (typed userData).

Definition getStudentByUserId (st : MemStorage) (userId : nat)
    : option Student.t :=
  find (fun student => Nat.eqb (Student.userId student) userId)
       (map_values (students st)).

Definition createStudent (st : MemStorage) (insertStudent : InsertStudent.t)
    : MemStorage * Student.t :=
  let id := currentStudentId st in
  let student :=
    {| Student.id := id;
       Student.userId := InsertStudent.userId insertStudent;
       Student.studentId := InsertStudent.studentId insertStudent;
       Student.grade := InsertStudent.grade insertStudent;
       Student.dateEnrolled := InsertStudent.dateEnrolled insertStudent;
       Student.status := InsertStudent.status insertStudent;
       Student.parentName := InsertStudent.parentName insertStudent;
       Student.parentEmail := InsertStudent.parentEmail insertStudent;
       Student.parentPhone := InsertStudent.parentPhone insertStudent;
       Student.address := InsertStudent.address insertStudent |} in
  ({| users := users st;
      students := map_set id student (students st);
      activities := activities st;
      currentUserId := currentUserId st;
      currentStudentId := S id;
      currentActivityId := currentActivityId st;
      sessionStore := sessionStore st |}, student).

Definition createActivity (now : N) (st : MemStorage)
    (insertActivity : InsertActivity.t) : MemStorage * Activity.t :=
  let id := currentActivityId st in
  let activity :=
    {| Activity.id := id;
       Activity.userId := InsertActivity.userId insertActivity;
       Activity.activityType := InsertActivity.activityType insertActivity;
       Activity.description := InsertActivity.description insertActivity;
       Activity.metadata := InsertActivity.metadata insertActivity;
       Activity.timestamp := now |} in
  ({| users := users st;
      students := students st;
      activities := map_set id activity (activities st);
      currentUserId := currentUserId st;
      currentStudentId := currentStudentId st;
      currentActivityId := S id;
      sessionStore := sessionStore st |}, activity).

(** Replacing the session store, as [express-session] does through
    [storage.sessionStore]. *)
Definition withSessions (st : MemStorage) (s : SessionStore) : MemStorage :=
  {| users := users st;
     students := students st;
     activities := activities st;
     currentUserId := currentUserId st;
     currentStudentId := currentStudentId st;
     currentActivityId := currentActivityId st;
     sessionStore := s |}.

(** ** HTTP layer: requests, responses, sessions *)

(** [Express.User]: the user record with the linked student profile. *)
Record Express_User : Type := mkExpressUser {
  user_record : User.t;
  studentInfo : option Student.t
}.

(** The JSON of [{ ...user, password: undefined }]: [JSON.stringify] drops
    the key whose value is [undefined]. *)
Module UserJson.
Record t : Type := mk {
  id : nat;
  username : string;
  firstName : string;
  lastName : string;
  email : string;
  role : string;
  avatarUrl : option string;
  createdAt : N
}.
End UserJson.

Definition omitPassword (user : User.t) : UserJson.t :=
  {| UserJson.id := User.id user;
     UserJson.username := User.username user;
     UserJson.firstName := User.firstName user;
     UserJson.lastName := User.lastName user;
     UserJson.email := User.email user;
     UserJson.role := User.role user;
     UserJson.avatarUrl := User.avatarUrl user;
     UserJson.createdAt := User.createdAt user |}.

Inductive Json : Type :=
| JMessage (message : string)                              (* { message } *)
| JUser (user : UserJson.t) (studentInfo : option Student.t)
| JText (text : string)                                    (* res.sendStatus *)
| JErrors (message : string).              (* { message, errors }: zod's issues *)

Record Response : Type := mkResponse {
  status : nat;
  payload : Json
}.

(** What a route does with a request: it answers, or it hands an error to
    [next] (Express then answers 500). *)
Inductive Outcome : Type :=
| Respond (r : Response)
| NextError (e : JsError).

(** What a middleware does: it calls [next()], or it answers itself. *)
Inductive Middleware : Type :=
| Next
| Sent (r : Response).

(** What a request takes from outside the program: the clock, the random
    source, one draw of [Math.floor(Math.random() * 90000)], and the id
    [express-session] generates if it starts a session. *)
Record Env : Type := mkEnv {
  now : N;
  entropy : Entropy;
  random90000 : N;
  genid : string
}.

(** [cookie.maxAge]: one day, in milliseconds. *)
Definition maxAge : N := (1000 * 60 * 60 * 24)%N.

(** A request as the routes see it: the session id of the cookie, [req.user]
    as [passport.session()] set it, and the parsed body. *)
Record Request (B : Type) : Type := mkRequest {
  sessionID : option string;
  user : option Express_User;
  body : B
}.

Arguments mkRequest {B} _ _ _.

Definition isStudent (user : User.t) : bool :=
  String.eqb (User.role user) "student".

(** [passport.serializeUser]. *)
Definition serializeUser (user : Express_User) : nat :=
  User.id (user_record user).

(** [passport.deserializeUser]: [None] is [done(null, false)]. *)
Definition deserializeUser (st : MemStorage) (id : nat) : option Express_User :=
  match getUser st id with
  | None => None
  | Some user =>
      let studentInfo :=
        if isStudent user then getStudentByUserId st (User.id user) else None in
      Some {| user_record := user; studentInfo := studentInfo |}
  end.

(** The session middleware: the record of the cookie's session id, unless
    there is none or it is stale. *)
Definition loadSession (t : N) (st : MemStorage) (sid : option string)
    : option SessionRecord :=
  match sid with
  | None => None
  | Some s =>
      match store_get s (sessionStore st) with
      | Some r => if N.leb t (expires r) then Some r else None
      | None => None
      end
  end.

(** [passport.session()]: resolves the session to [req.user]. The id kept
    in the session is deserialised on every request. *)
Definition resolveSession (t : N) (st : MemStorage) (sid : option string)
    : option Express_User :=
  match loadSession t st sid with
  | Some r =>
      match passport_user r with
      | Some id => deserializeUser st id
      | None => None
      end
  | None => None
  end.

Definition passport_session {B : Type} (t : N) (st : MemStorage)
    (sid : option string) (b : B) : Request B :=
  mkRequest sid (resolveSession t st sid) b.

(** [req.login(user, cb)]: the session is regenerated under a new id, the
    serialised user is put in it, and it is saved. *)
Definition req_login (env : Env) (st : MemStorage) (sid : option string)
    (user : Express_User) : MemStorage :=
  let kept :=
    match sid with
    | Some s => store_destroy s (sessionStore st)
    | None => sessionStore st
    end in
  withSessions st
    (store_set (genid env)
       {| passport_user := Some (serializeUser user);
          expires := (now env + maxAge)%N |} kept).

(** [req.logout(cb)]: the user is taken out of the session, the session is
    saved and then regenerated. Its record leaves the store; the request
    ends under the new id, and [express-session] saves the new, empty
    session when the response ends (also when the request came without a
    cookie). *)
Definition req_logout (env : Env) (st : MemStorage) (sid : option string)
    : MemStorage :=
  let kept :=
    match sid with
    | Some s => store_destroy s (sessionStore st)
    | None => sessionStore st
    end in
  withSessions st
    (store_set (genid env)
       {| passport_user := None; expires := (now env + maxAge)%N |} kept).

(** What [express-session] does when a response ends under the session id
    of the request's cookie. A record that was stale when the request came
    is gone from the store. A live record is written back with its expiry
    moved to [maxAge] from now ([touch], or [save] when [passport.session()]
    changed the session): it keeps the user id that could be deserialised
    and loses one that could not. Without a cookie, or with one that is
    not in the store, the new session is empty and is not saved
    ([saveUninitialized: false]). *)
Definition touch (env : Env) (st : MemStorage) (cookie : option string)
    (st1 : MemStorage) : MemStorage :=
  match cookie with
  | None => st1
  | Some s =>
      match store_get s (sessionStore st) with
      | None => st1
      | Some r =>
          if N.leb (now env) (expires r) then
            withSessions st1
              (store_set s
                 {| passport_user :=
                      match resolveSession (now env) st (Some s) with
                      | Some _ => passport_user r
                      | None => None
                      end;
                    expires := (now env + maxAge)%N |}
                 (sessionStore st1))
          else withSessions st1 (store_destroy s (sessionStore st1))
      end
  end.

(** The status of an answer; [None] when the error went to [next]. *)
Definition statusOf (o : Outcome) : option nat :=
  match o with
  | Respond r => Some (status r)
  | NextError _ => None
  end.

Definition hasStatus (code : nat) (o : Outcome) : bool :=
  match statusOf o with
  | Some n => Nat.eqb n code
  | None => false
  end.

(** ** Guards ([src/unnamed/part_007]) *)

Definition includes (roles : list string) (r : string) : bool :=
  existsb (String.eqb r) roles.

Definition req_isAuthenticated {B : Type} (req : Request B) : bool :=
  match user req with Some _ => true | None => false end.

Definition isAuthenticated {B : Type} (req : Request B) : Middleware :=
  if req_isAuthenticated req then Next
  else Sent {| status := 401; payload := JMessage "Not authenticated" |}.

Definition hasRole {B : Type} (roles : list string) (req : Request B)
    : Middleware :=
  match user req with
  | None => Sent {| status := 401; payload := JMessage "Not authenticated" |}
  | Some u =>
      if negb (includes roles (User.role (user_record u)))
      then Sent {| status := 403;
                   payload := JMessage "Forbidden: insufficient permissions" |}
      else Next
  end.

(** A [varchar(n)] column: at most [n] characters. *)
Definition varchar (n : nat) (s : string) : bool :=
  Nat.leb (String.length s) n.

(** An [int] column: a 32-bit signed integer. *)
Definition int32 (z : Z) : bool :=
  (Z.leb (-2147483648) z && Z.leb z 2147483647)%Z.

(** An id of an [int] column. *)
Definition int32id (n : nat) : bool := int32 (Z.of_nat n).

(** A [text] column: at most 65535 characters. *)
Definition text (s : string) : bool :=
  N.leb (N.of_nat (String.length s)) 65535.

Definition optional {A : Type} (check : A -> bool) (o : option A) : bool :=
  match o with
  | Some a => check a
  | None => true
  end.

(** [insertUserSchema.parse] on a body that has the fields of [InsertUser],
    as [createInsertSchema] derives it from the [users] table: the lengths
    of the [varchar] columns and the enumeration of the role (which the
    schema would also let be absent; the bodies here carry it). *)
Definition insertUserSchema (b : InsertUser.t) : bool :=
  varchar 50 (InsertUser.username b)
  && varchar 100 (InsertUser.password b)
  && varchar 50 (InsertUser.firstName b)
  && varchar 50 (InsertUser.lastName b)
  && varchar 100 (InsertUser.email b)
  && includes ["admin"; "teacher"; "student"] (InsertUser.role b)
  && optional (varchar 255) (InsertUser.avatarUrl b).

Definition validateBody {B : Type} (schema : B -> bool) (req : Request B)
    : Middleware :=
  if schema (body req) then Next
  else Sent {| status := 400; payload := JErrors "Validation error" |}.

(** Runs a route behind its middlewares, in order. *)
Fixpoint behind {B : Type} (guards : list (Request B -> Middleware))
    (req : Request B) (st : MemStorage) (route : MemStorage * Outcome)
    : MemStorage * Outcome :=
  match guards with
  | [] => route
  | g :: rest =>
      match g req with
      | Sent r => (st, Respond r)
      | Next => behind rest req st route
      end
  end.

(** ** User routes ([src/unnamed/part_007]) *)

(** [POST /api/users]. *)
Definition postUsers (env : Env) (st : MemStorage)
    (req : Request InsertUser.t) : MemStorage * Outcome :=
  behind [isAuthenticated; hasRole ["admin"]; validateBody insertUserSchema]
    req st
    (let hashedPassword := InsertUser.password (body req) in
     let (st1, created) := createUser (now env) st (body req) in
     let adminId :=
       match user req with
       | Some u => User.id (user_record u)
       | None => 0
       end in
     let (st2, _) :=
       createActivity (now env) st1
         {| InsertActivity.userId := adminId;
            InsertActivity.activityType := "USER_CREATED";
            InsertActivity.description :=
              "Admin created user " ++ User.username created
              ++ " with role " ++ User.role created;
            InsertActivity.metadata :=
              [("userId", MNum (User.id created));
               ("role", MStr (User.role created))] |} in
     (st2, Respond {| status := 201;
                      payload := JUser (omitPassword created) None |})).

(** [const { password, ...userData } = req.body]. *)
Definition withoutPassword (b : PartialUser.t) : PartialUser.t :=
  {| PartialUser.username := PartialUser.username b;
     PartialUser.password := None;
     PartialUser.firstName := PartialUser.firstName b;
     PartialUser.lastName := PartialUser.lastName b;
     PartialUser.email := PartialUser.email b;
     PartialUser.role := PartialUser.role b;
     PartialUser.avatarUrl := PartialUser.avatarUrl b |}.

(** [const { password, ...userData } = req.body] on the body as it came. *)
Definition dropPassword (b : PatchBody) : PatchBody :=
  {| patch_user := withoutPassword (patch_user b);
     patch_id := patch_id b;
     patch_createdAt := patch_createdAt b |}.

(** [PATCH /api/users/:id]. The body is not validated. *)
Definition patchUser (env : Env) (st : MemStorage) (id : nat)
    (req : Request PatchBody) : MemStorage * Outcome :=
  behind [isAuthenticated; hasRole ["admin"]] req st
    (let userData := dropPassword (body req) in
     match updateUserWith st id userData with
     | (st1, None) =>
         (st1, Respond {| status := 404; payload := JMessage "User not found" |})
     | (st1, Some updatedUser) =>
         let adminId :=
           match user req with
           | Some u => User.id (user_record u)
           | None => 0
           end in
         let (st2, _) :=
           createActivity (now env) st1
             {| InsertActivity.userId := adminId;
                InsertActivity.activityType := "USER_UPDATED";
                InsertActivity.description :=
                  "Admin updated user " ++ User.username updatedUser;
                InsertActivity.metadata :=
                  [("userId", MNum (User.id updatedUser));
                   ("role", MStr (User.role updatedUser))] |} in
         (st2, Respond {| status := 200;
                          payload := JUser (omitPassword updatedUser) None |})
     end).

(** ** Authentication routes ([src/server/db.ts]) *)

(** [LoginData]. An absent field and the empty string are both falsy. *)
Record LoginData : Type := mkLogin {
  login_username : string;
  login_password : string
}.

(** The body of a registration: the user's fields and the optional fields
    of the student record. *)
Record RegisterBody : Type := mkRegister {
  reg_user : InsertUser.t;
  reg_grade : option string;
  reg_parentName : option string;
  reg_parentEmail : option string;
  reg_parentPhone : option string;
  reg_address : option string
}.

(** [{ ...req.body, password: digest }]. *)
Definition withPassword (u : InsertUser.t) (digest : string) : InsertUser.t :=
  {| InsertUser.username := InsertUser.username u;
     InsertUser.password := digest;
     InsertUser.firstName := InsertUser.firstName u;
     InsertUser.lastName := InsertUser.lastName u;
     InsertUser.email := InsertUser.email u;
     InsertUser.role := InsertUser.role u;
     InsertUser.avatarUrl := InsertUser.avatarUrl u |}.

(** [value || fallback] on an optional string. *)
Definition orDefault (value : option string) (fallback : string) : string :=
  match value with
  | Some s => if String.eqb s "" then fallback else s
  | None => fallback
  end.

Definition decimal (n : N) : string :=
  DecimalString.NilZero.string_of_uint (N.to_uint n).

Section Routes.

Variable scrypt_stream : string -> string -> nat -> byte.

(** The verify callback of [LocalStrategy]: [Ok None] is
    [done(null, false)], [Throw e] is [done(e)]. *)
Definition localStrategy (st : MemStorage) (username password : string)
    : Result (option Express_User) :=
  match getUserByUsername st username with
  | None => Ok None
  | Some user =>
      await matches <-
        comparePasswords scrypt_stream password (User.password user) ;;
      if negb matches then Ok None
      else
        let studentInfo :=
          if isStudent user then getStudentByUserId st (User.id user)
          else None in
        Ok (Some {| user_record := user; studentInfo := studentInfo |})
  end.

(** [passport.authenticate("local", callback)]: [passport-local] fails
    without calling the verify callback when a credential is missing;
    every failure reaches the callback as [user = false]. *)
Definition authenticate_local (st : MemStorage) (credentials : LoginData)
    : Result (option Express_User) :=
  if String.eqb (login_username credentials) ""
     || String.eqb (login_password credentials) ""
  then Ok None
  else localStrategy st (login_username credentials)
                        (login_password credentials).

(** [POST /api/login]. *)
Definition login (env : Env) (st : MemStorage) (req : Request LoginData)
    : MemStorage * Outcome :=
  match authenticate_local st (body req) with
  | Throw err => (st, NextError err)
  | Ok None =>
      (st, Respond {| status := 401;
                      payload := JMessage "Invalid username or password" |})
  | Ok (Some u) =>
      let st1 := req_login env st (sessionID req) u in
      let (st2, _) :=
        createActivity (now env) st1
          {| InsertActivity.userId := User.id (user_record u);
             InsertActivity.activityType := "USER_LOGIN";
             InsertActivity.description :=
               "User " ++ User.username (user_record u) ++ " logged in";
             InsertActivity.metadata :=
               [("id", MNum (User.id (user_record u)));
                ("role", MStr (User.role (user_record u)))] |} in
      (st2, Respond {| status := 200;
                       payload := JUser (omitPassword (user_record u))
                                        (studentInfo u) |})
  end.

(** [POST /api/register] from the point where [hashPassword] has delivered
    the digest: the user, the student record of a student, the activity,
    the login and the answer. These steps run on the store as it is by
    then. *)
Definition registerCommit (env : Env) (st : MemStorage)
    (req : Request RegisterBody) (digest : string) : MemStorage * Outcome :=
  let b := body req in
  let userData := withPassword (reg_user b) digest in
  let (st1, created) := createUser (now env) st userData in
  let (st2, info) :=
    if isStudent created then
      let studentId := "ST" ++ decimal (10000 + random90000 env)%N in
      let (st', student) :=
        createStudent st1
          {| InsertStudent.userId := User.id created;
             InsertStudent.studentId := studentId;
             InsertStudent.grade := orDefault (reg_grade b) "Not assigned";
             InsertStudent.dateEnrolled := now env;
             InsertStudent.status := "active";
             InsertStudent.parentName := reg_parentName b;
             InsertStudent.parentEmail := reg_parentEmail b;
             InsertStudent.parentPhone := reg_parentPhone b;
             InsertStudent.address := reg_address b |} in
      (st', Some student)
    else (st1, None) in
  let (st3, _) :=
    createActivity (now env) st2
      {| InsertActivity.userId := User.id created;
         InsertActivity.activityType := "USER_REGISTERED";
         InsertActivity.description :=
           "User " ++ User.username created
           ++ " registered with role " ++ User.role created;
         InsertActivity.metadata :=
           [("id", MNum (User.id created));
            ("role", MStr (User.role created))] |} in
  let st4 :=
    req_login env st3 (sessionID req)
      {| user_record := created; studentInfo := info |} in
  (st4, Respond {| status := 201;
                   payload := JUser (omitPassword created) info |}).

(** [POST /api/register], served with no other request in between. The
    body is not validated; the fields of the user go to [createUser], the
    others to the student record. *)
Definition register (env : Env) (st : MemStorage)
    (req : Request RegisterBody) : MemStorage * Outcome :=
  let b := body req in
  match getUserByUsername st (InsertUser.username (reg_user b)) with
  | Some existingUser =>
      (st, Respond {| status := 400;
                      payload := JMessage "Username already exists" |})
  | None =>
      registerCommit env st req
        (hashPassword scrypt_stream (entropy env)
           (InsertUser.password (reg_user b)))
  end.

(** Two registrations that overlap. The route looks the username up and
    then awaits [hashPassword], whose scrypt runs off the event loop: a
    second request that arrives in the meantime looks its username up in
    the same store, before the first has written. Then the first goes on,
    then the second. The answers are those to the first and the second
    request. *)
Definition registerOverlapping (env1 env2 : Env) (st : MemStorage)
    (req1 req2 : Request RegisterBody) : MemStorage * (Outcome * Outcome) :=
  let refused :=
    Respond {| status := 400;
               payload := JMessage "Username already exists" |} in
  let digest1 :=
    hashPassword scrypt_stream (entropy env1)
      (InsertUser.password (reg_user (body req1))) in
  let digest2 :=
    hashPassword scrypt_stream (entropy env2)
      (InsertUser.password (reg_user (body req2))) in
  match getUserByUsername st (InsertUser.username (reg_user (body req1))),
        getUserByUsername st (InsertUser.username (reg_user (body req2)))
  with
  | Some _, Some _ => (st, (refused, refused))
  | Some _, None =>
      let (st2, answer2) := registerCommit env2 st req2 digest2 in
      (st2, (refused, answer2))
  | None, Some _ =>
      let (st1, answer1) := registerCommit env1 st req1 digest1 in
      (st1, (answer1, refused))
  | None, None =>
      let (st1, answer1) := registerCommit env1 st req1 digest1 in
      let (st2, answer2) := registerCommit env2 st1 req2 digest2 in
      (st2, (answer1, answer2))
  end.

(** [POST /api/logout]. *)
Definition logout (env : Env) (st : MemStorage) (req : Request unit)
    : MemStorage * Outcome :=
  let st1 :=
    match user req with
    | Some u =>
        fst (createActivity (now env) st
               {| InsertActivity.userId := User.id (user_record u);
                  InsertActivity.activityType := "USER_LOGOUT";
                  InsertActivity.description :=
                    "User " ++ User.username (user_record u) ++ " logged out";
                  InsertActivity.metadata :=
                    [("id", MNum (User.id (user_record u)));
                     ("role", MStr (User.role (user_record u)))] |})
    | None => st
    end in
  (req_logout env st1 (sessionID req),
   Respond {| status := 200; payload := JText "OK" |}).

(** [GET /api/user]. *)
Definition getCurrentUser (st : MemStorage) (req : Request unit)
    : MemStorage * Outcome :=
  match user req with
  | None => (st, Respond {| status := 401; payload := JText "Unauthorized" |})
  | Some u =>
      (st, Respond {| status := 200;
                      payload := JUser (omitPassword (user_record u))
                                       (studentInfo u) |})
  end.

(** ** The server as a transition system *)

(** One HTTP call: the route, the session cookie, the body. *)
Inductive ApiCall : Type :=
| PostRegister (cookie : option string) (b : RegisterBody)
| PostLogin (cookie : option string) (b : LoginData)
| PostLogout (cookie : option string)
| GetUser (cookie : option string)
| PostUsers (cookie : option string) (b : InsertUser.t)
| PatchUser (cookie : option string) (id : nat) (b : PatchBody).

Definition cookieOf (call : ApiCall) : option string :=
  match call with
  | PostRegister c _ | PostLogin c _ | PostLogout c | GetUser c
  | PostUsers c _ | PatchUser c _ _ => c
  end.

(** The session middlewares resolve the session, then the route runs. *)
Definition route (env : Env) (st : MemStorage) (call : ApiCall)
    : MemStorage * Outcome :=
  match call with
  | PostRegister c b => register env st (passport_session (now env) st c b)
  | PostLogin c b => login env st (passport_session (now env) st c b)
  | PostLogout c => logout env st (passport_session (now env) st c tt)
  | GetUser c => getCurrentUser st (passport_session (now env) st c tt)
  | PostUsers c b => postUsers env st (passport_session (now env) st c b)
  | PatchUser c id b => patchUser env st id (passport_session (now env) st c b)
  end.

(** [req.login] and [req.logout] regenerate the session, so that the
    request ends under another session id than the one of its cookie:
    the accepted registration, the accepted login, and every logout. *)
Definition regenerates (call : ApiCall) (answer : Outcome) : bool :=
  match call with
  | PostRegister _ _ => hasStatus 201 answer
  | PostLogin _ _ => hasStatus 200 answer
  | PostLogout _ => true
  | _ => false
  end.

(** One HTTP call from the cookie to the end of the response. Unless the
    route regenerated the session, [express-session] writes the session
    of the cookie back when the response ends. *)
Definition serve (env : Env) (st : MemStorage) (call : ApiCall)
    : MemStorage * Outcome :=
  let done := route env st call in
  (if regenerates call (snd done) then fst done
   else touch env st (cookieOf call) (fst done),
   snd done).

Fixpoint run (st : MemStorage) (calls : list (Env * ApiCall)) : MemStorage :=
  match calls with
  | [] => st
  | (env, call) :: rest => run (fst (serve env st call)) rest
  end.

End Routes.

(** ** Predicates used in the statements *)


(** A digest of the shape [hashPassword] produces: two hexadecimal
    components around one ['.'], the first one of 64 bytes. *)
Definition wellFormedDigest (d : string) : bool :=
  match split "." d with
  | [hashed; salt] =>
      Hex.isHex hashed && Nat.eqb (String.length hashed) 128 && Hex.isHex salt
  | _ => false
  end.

(** The salt component of a digest, as [comparePasswords] takes it. *)
Definition saltOf (d : string) : option string := nth_error (split "." d) 1.

(** The answer of the logout route. *)
Definition loggedOut : Response := {| status := 200; payload := JText "OK" |}.

(** Every user is filed under its own id. *)
Definition keyed (st : MemStorage) : Prop :=
  forall k u, map_get k (users st) = Some u -> User.id u = k.

(** No record of the session store is filed under [sid]. *)
Definition noSession (sid : string) (st : MemStorage) : Prop :=
  store_get sid (sessionStore st) = None.

(** The session [sid] carries no user: no record is filed under it, or one
    without user id. *)
Definition unbound (sid : string) (st : MemStorage) : Prop :=
  forall r, store_get sid (sessionStore st) = Some r -> passport_user r = None.

(** ** A concrete instance, to run the routes on *)

Module Sample.

(** A stand-in key stream: the bytes of the password, then of the salt,
    then zeros. *)
Definition stream (password salt : string) (i : nat) : byte :=
  nth i (list_byte_of_string (password ++ salt)) x00.

Definition zeros : Entropy := fun _ => x00.
Definition ones : Entropy := fun _ => x01.

Definition env1 : Env :=
  {| now := 1000; entropy := zeros; random90000 := 2345; genid := "sid-1" |}.

Definition env2 : Env :=
  {| now := 2000; entropy := ones; random90000 := 777; genid := "sid-2" |}.

Definition env3 : Env :=
  {| now := 3000; entropy := ones; random90000 := 5; genid := "sid-3" |}.

Definition aliceBody : RegisterBody :=
  {| reg_user :=
       {| InsertUser.username := "alice";
          InsertUser.password := "correct-pw";
          InsertUser.firstName := "Alice";
          InsertUser.lastName := "Adams";
          InsertUser.email := "alice@school.test";
          InsertUser.role := "teacher";
          InsertUser.avatarUrl := None |};
     reg_grade := None; reg_parentName := None; reg_parentEmail := None;
     reg_parentPhone := None; reg_address := None |}.

Definition rootBody : RegisterBody :=
  {| reg_user :=
       {| InsertUser.username := "root";
          InsertUser.password := "root-pw";
          InsertUser.firstName := "Rita";
          InsertUser.lastName := "Root";
          InsertUser.email := "root@school.test";
          InsertUser.role := "admin";
          InsertUser.avatarUrl := None |};
     reg_grade := None; reg_parentName := None; reg_parentEmail := None;
     reg_parentPhone := None; reg_address := None |}.

Definition bob : InsertUser.t :=
  {| InsertUser.username := "bob";
     InsertUser.password := "secret1";
     InsertUser.firstName := "Bob";
     InsertUser.lastName := "Brown";
     InsertUser.email := "bob@school.test";
     InsertUser.role := "teacher";
     InsertUser.avatarUrl := None |}.

(** alice registers (session ["sid-1"]), then root registers (session
    ["sid-2"]). *)
Definition st1 : MemStorage :=
  fst (serve stream env1 newMemStorage (PostRegister None aliceBody)).

Definition st2 : MemStorage :=
  fst (serve stream env2 st1 (PostRegister None rootBody)).

(** root, the admin, creates bob through [POST /api/users]. *)
Definition st3 : MemStorage :=
  fst (serve stream env3 st2 (PostUsers (Some "sid-2") bob)).

Definition makeStudent : PartialUser.t :=
  {| PartialUser.username := None; PartialUser.password := None;
     PartialUser.firstName := None; PartialUser.lastName := None;
     PartialUser.email := None; PartialUser.role := Some "student";
     PartialUser.avatarUrl := None |}.

(** alice as the store has her after her registration. *)
Definition alice : Express_User :=
  {| user_record :=
       snd (createUser 1000 newMemStorage
              (withPassword (reg_user aliceBody)
                 (hashPassword stream zeros "correct-pw")));
     studentInfo := None |}.

(** A session whose user id (99) is not in the user store. *)
Definition orphaned : MemStorage :=
  withSessions st1
    (store_set "sid-9" {| passport_user := Some 99; expires := 5000 |}
       (sessionStore st1)).

End Sample.

(** ** Courses, enrollments, grades and submissions

    The records of [src/unnamed/part_001], the maps of [MemStorage] that
    hold them ([src/unnamed/part_008]) and three of their routes
    ([src/unnamed/part_007]). The maps are kept in a record of their own,
    beside the one above. *)

Module Course.
Record t : Type := mk {
  id : nat;
  code : string;
  name : string;
  description : option string;
  teacherId : option nat;
  credits : Z;
  semester : option string;
  status : option string
}.
End Course.

Module InsertEnrollment.
Record t : Type := mk {
  studentId : nat;
  courseId : nat;
  status : option string
}.
End InsertEnrollment.

Module Enrollment.
Record t : Type := mk {
  id : nat;
  studentId : nat;
  courseId : nat;
  enrollmentDate : N;
  status : option string
}.
End Enrollment.

Module Grade.
Record t : Type := mk {
  id : nat;
  studentId : nat;
  courseId : nat;
  score : Z;
  grade : string;
  semester : string;
  notes : option string
}.
End Grade.

Module InsertSubmission.
Record t : Type := mk {
  assignmentId : nat;
  studentId : nat;
  content : option string;
  score : option Z;
  feedback : option string;
  status : string
}.
End InsertSubmission.

Module Submission.
Record t : Type := mk {
  id : nat;
  assignmentId : nat;
  studentId : nat;
  submissionDate : N;
  content : option string;
  score : option Z;
  feedback : option string;
  status : string
}.
End Submission.

Record Academic : Type := mkAcademic {
  courses : JsMap Course.t;
  enrollments : JsMap Enrollment.t;
  submissions : JsMap Submission.t;
  grades : JsMap Grade.t;
  currentEnrollmentId : nat;
  currentSubmissionId : nat
}.

(** The whole store: users, students, activities and sessions, and the
    academic maps. *)
Record School : Type := mkSchool {
  core : MemStorage;
  academic : Academic
}.

Definition getStudent (st : MemStorage) (id : nat) : option Student.t :=
  map_get id (students st).

Definition getCourse (a : Academic) (id : nat) : option Course.t :=
  map_get id (courses a).

Definition listEnrollmentsByStudent (a : Academic) (studentId : nat)
    : list Enrollment.t :=
  filter (fun enrollment => Nat.eqb (Enrollment.studentId enrollment) studentId)
         (map_values (enrollments a)).

Definition createEnrollment (now : N) (a : Academic)
    (insertEnrollment : InsertEnrollment.t) : Academic * Enrollment.t :=
  let id := currentEnrollmentId a in
  let enrollment :=
    {| Enrollment.id := id;
       Enrollment.studentId := InsertEnrollment.studentId insertEnrollment;
       Enrollment.courseId := InsertEnrollment.courseId insertEnrollment;
       Enrollment.enrollmentDate := now;
       Enrollment.status := InsertEnrollment.status insertEnrollment |} in
  ({| courses := courses a;
      enrollments := map_set id enrollment (enrollments a);
      submissions := submissions a;
      grades := grades a;
      currentEnrollmentId := S id;
      currentSubmissionId := currentSubmissionId a |}, enrollment).

Definition listGradesByStudent (a : Academic) (studentId : nat)
    : list Grade.t :=
  filter (fun grade => Nat.eqb (Grade.studentId grade) studentId)
         (map_values (grades a)).

Definition createSubmission (now : N) (a : Academic)
    (insertSubmission : InsertSubmission.t) : Academic * Submission.t :=
  let id := currentSubmissionId a in
  let submission :=
    {| Submission.id := id;
       Submission.assignmentId := InsertSubmission.assignmentId insertSubmission;
       Submission.studentId := InsertSubmission.studentId insertSubmission;
       Submission.submissionDate := now;
       Submission.content := InsertSubmission.content insertSubmission;
       Submission.score := InsertSubmission.score insertSubmission;
       Submission.feedback := InsertSubmission.feedback insertSubmission;
       Submission.status := InsertSubmission.status insertSubmission |} in
  ({| courses := courses a;
      enrollments := enrollments a;
      submissions := map_set id submission (submissions a);
      grades := grades a;
      currentEnrollmentId := currentEnrollmentId a;
      currentSubmissionId := S id |}, submission).

(** What these routes answer with. *)
Inductive SchoolPayload : Type :=
| PJson (j : Json)                              (* a message, as above *)
| PEnrollment (enrollment : Enrollment.t)
| PSubmission (submission : Submission.t)
| PGrades (enriched : list (Grade.t * option Course.t)).  (* { ...grade, course } *)

Record SchoolResponse : Type := mkSchoolResponse {
  s_status : nat;
  s_payload : SchoolPayload
}.

Definition message (code : nat) (text : string) : SchoolResponse :=
  {| s_status := code; s_payload := PJson (JMessage text) |}.

(** The [catch] of these routes. *)
Definition serverError : SchoolResponse := message 500 "Server error".

(** A route over the whole store behind its middlewares. *)
Fixpoint guarded {B : Type} (guards : list (Request B -> Middleware))
    (req : Request B) (sc : School) (route : School * SchoolResponse)
    : School * SchoolResponse :=
  match guards with
  | [] => route
  | g :: rest =>
      match g req with
      | Sent r => (sc, {| s_status := status r; s_payload := PJson (payload r) |})
      | Next => guarded rest req sc route
      end
  end.

(** [insertEnrollmentSchema.parse]: the ids are 32-bit integers; the
    status is optional, of the enumeration of the [enrollments] table. *)
Definition insertEnrollmentSchema (b : InsertEnrollment.t) : bool :=
  int32id (InsertEnrollment.studentId b)
  && int32id (InsertEnrollment.courseId b)
  && optional (includes ["enrolled"; "dropped"; "completed"])
       (InsertEnrollment.status b).

(** [insertSubmissionSchema.parse]: the ids and the score are 32-bit
    integers, content and feedback fit a [text] column, and the status is
    required, of the enumeration of the [submissions] table. *)
Definition insertSubmissionSchema (b : InsertSubmission.t) : bool :=
  int32id (InsertSubmission.assignmentId b)
  && int32id (InsertSubmission.studentId b)
  && optional text (InsertSubmission.content b)
  && optional int32 (InsertSubmission.score b)
  && optional text (InsertSubmission.feedback b)
  && includes ["submitted"; "late"; "graded"; "not_submitted"]
       (InsertSubmission.status b).

(** [POST /api/enrollments]. *)
Definition postEnrollments (env : Env) (sc : School)
    (req : Request InsertEnrollment.t) : School * SchoolResponse :=
  guarded [isAuthenticated; hasRole ["admin"];
           validateBody insertEnrollmentSchema] req sc
    (let studentId := InsertEnrollment.studentId (body req) in
     let courseId := InsertEnrollment.courseId (body req) in
     let student := getStudent (core sc) studentId in
     let course := getCourse (academic sc) courseId in
     match student with
     | None => (sc, message 404 "Student not found")
     | Some _ =>
         match course with
         | None => (sc, message 404 "Course not found")
         | Some course =>
             let enrollments :=
               listEnrollmentsByStudent (academic sc) studentId in
             let existingEnrollment :=
               find (fun e => Nat.eqb (Enrollment.courseId e) courseId)
                    enrollments in
             match existingEnrollment with
             | Some _ =>
                 (sc, message 400 "Student is already enrolled in this course")
             | None =>
                 let (a1, enrollment) :=
                   createEnrollment (now env) (academic sc) (body req) in
                 match user req with
                 | None => ({| core := core sc; academic := a1 |}, serverError)
                 | Some u =>
                     let (st1, _) :=
                       createActivity (now env) (core sc)
                         {| InsertActivity.userId := User.id (user_record u);
                            InsertActivity.activityType := "ENROLLMENT_CREATED";
                            InsertActivity.description :=
                              "Student enrolled in course " ++ Course.name course
                              ++ " (" ++ Course.code course ++ ")";
                            InsertActivity.metadata :=
                              [("studentId", MNum studentId);
                               ("courseId", MNum courseId)] |} in
                     ({| core := st1; academic := a1 |},
                      {| s_status := 201; s_payload := PEnrollment enrollment |})
                 end
             end
         end
     end).

(** [GET /api/students/:studentId/grades]. *)
Definition getStudentGrades (sc : School) (studentId : nat)
    (req : Request unit) : School * SchoolResponse :=
  guarded [isAuthenticated] req sc
    (match getStudent (core sc) studentId with
     | None => (sc, message 404 "Student not found")
     | Some student =>
         match user req with
         | None => (sc, serverError)
         | Some u =>
             if isStudent (user_record u)
                && match studentInfo u with
                   | None => true
                   | Some info => negb (Nat.eqb (Student.id info) studentId)
                   end
             then (sc, message 403 "Forbidden: you can only view your own grades")
             else
               let grades := listGradesByStudent (academic sc) studentId in
               let enrichedGrades :=
                 map (fun grade =>
                        (grade, getCourse (academic sc) (Grade.courseId grade)))
                     grades in
               (sc, {| s_status := 200; s_payload := PGrades enrichedGrades |})
         end
     end).

(** [req.body.studentId = id]. *)
Definition withStudentId (b : InsertSubmission.t) (id : nat)
    : InsertSubmission.t :=
  {| InsertSubmission.assignmentId := InsertSubmission.assignmentId b;
     InsertSubmission.studentId := id;
     InsertSubmission.content := InsertSubmission.content b;
     InsertSubmission.score := InsertSubmission.score b;
     InsertSubmission.feedback := InsertSubmission.feedback b;
     InsertSubmission.status := InsertSubmission.status b |}.

(** [POST /api/submissions]. *)
Definition postSubmissions (env : Env) (sc : School)
    (req : Request InsertSubmission.t) : School * SchoolResponse :=
  guarded [isAuthenticated; validateBody insertSubmissionSchema] req sc
    (match user req with
     | None => (sc, serverError)
     | Some u =>
         let b :=
           match isStudent (user_record u), studentInfo u with
           | true, Some info => withStudentId (body req) (Student.id info)
           | _, _ => body req
           end in
         let (a1, submission) :=
           createSubmission (now env) (academic sc) b in
         let (st1, _) :=
           createActivity (now env) (core sc)
             {| InsertActivity.userId := User.id (user_record u);
                InsertActivity.activityType := "SUBMISSION_CREATED";
                InsertActivity.description := "Assignment submission created";
                InsertActivity.metadata :=
                  [("submissionId", MNum (Submission.id submission));
                   ("assignmentId",
                    MNum (Submission.assignmentId submission))] |} in
         ({| core := st1; academic := a1 |},
          {| s_status := 201; s_payload := PSubmission submission |})
     end).

(** The pairs (student, course) of the enrollments on file. *)
Definition enrolledPairs (a : Academic) : list (nat * nat) :=
  map (fun e => (Enrollment.studentId e, Enrollment.courseId e))
      (map_values (enrollments a)).

(** ** Recent activities ([src/unnamed/part_008])

    [Array.prototype.sort] is stable. With the comparator
    [b.timestamp - a.timestamp] it puts the activities in descending order
    of their timestamps and leaves activities of one timestamp in the
    order of the map; the stable insertion below computes that list. *)

Fixpoint insertNewest (x : Activity.t) (l : list Activity.t)
    : list Activity.t :=
  match l with
  | [] => [x]
  | y :: rest =>
      if N.leb (Activity.timestamp y) (Activity.timestamp x)
      then x :: y :: rest
      else y :: insertNewest x rest
  end.

Definition newestFirst (l : list Activity.t) : list Activity.t :=
  fold_right insertNewest [] l.

(** [array.slice(0, end)]: a negative [end] counts from the end of the
    array. *)
Definition slice0 {A : Type} (end_ : Z) (l : list A) : list A :=
  if Z.ltb end_ 0
  then firstn (Z.to_nat (Z.of_nat (List.length l) + end_)) l
  else firstn (Z.to_nat end_) l.

(** [listRecentActivities(limit = 10)]. *)
Definition listRecentActivities (st : MemStorage) (limit : option Z)
    : list Activity.t :=
  slice0 (or_else limit 10%Z) (newestFirst (map_values (activities st))).

(** Descending order of timestamps. *)
Definition notOlder (a b : Activity.t) : Prop :=
  (Activity.timestamp b <= Activity.timestamp a)%N.

(** ** Invariants of the in-memory store *)

(** The keys of a map, in insertion order. *)
Definition keys {V : Type} (m : JsMap V) : list nat := map fst m.

(** A map and the counter its next key comes from: no key twice, and every
    key below the counter. *)
Definition tidy {V : Type} (next : nat) (m : JsMap V) : Prop :=
  NoDup (keys m) /\ forall k, In k (keys m) -> k < next.

(** What [MemStorage] keeps true of its maps and counters. *)
Definition consistent (st : MemStorage) : Prop :=
  tidy (currentUserId st) (users st)
  /\ tidy (currentStudentId st) (students st)
  /\ tidy (currentActivityId st) (activities st).

(** A call whose body does not carry the key [id]: every call but a
    [PATCH /api/users/:id] whose body has it. *)
Definition carriesNoId (call : ApiCall) : Prop :=
  match call with
  | PatchUser _ _ b => patch_id b = None
  | _ => True
  end.

(** The users, students and activities on file and their counters: the
    store but for the sessions. *)
Definition sameData (st st' : MemStorage) : Prop :=
  users st' = users st
  /\ students st' = students st
  /\ activities st' = activities st
  /\ currentUserId st' = currentUserId st
  /\ currentStudentId st' = currentStudentId st
  /\ currentActivityId st' = currentActivityId st.

(** The record of an empty session saved at the time of [env]. *)
Definition emptySession (env : Env) : SessionRecord :=
  {| passport_user := None; expires := (now env + maxAge)%N |}.

(** The answers of the guards. *)
Definition notAuthenticated : Response :=
  {| status := 401; payload := JMessage "Not authenticated" |}.

Definition forbidden : Response :=
  {| status := 403; payload := JMessage "Forbidden: insufficient permissions" |}.

(** ** Further concrete instances *)

Module Demo.

Definition carolBody : RegisterBody :=
  {| reg_user :=
       {| InsertUser.username := "carol";
          InsertUser.password := "carol-pw";
          InsertUser.firstName := "Carol";
          InsertUser.lastName := "Clark";
          InsertUser.email := "carol@school.test";
          InsertUser.role := "student";
          InsertUser.avatarUrl := None |};
     reg_grade := Some "10"; reg_parentName := Some "Chris Clark";
     reg_parentEmail := None; reg_parentPhone := None;
     reg_address := None |}.

Definition env4 : Env :=
  {| now := 4000; entropy := Sample.ones; random90000 := 4321;
     genid := "sid-4" |}.

Definition env5 : Env :=
  {| now := 5000; entropy := Sample.zeros; random90000 := 1;
     genid := "sid-5" |}.

(** alice (teacher, session ["sid-1"]), root (admin, ["sid-2"]), then carol
    (student, ["sid-4"]). *)
Definition st4 : MemStorage :=
  fst (serve Sample.stream env4 Sample.st2 (PostRegister None carolBody)).

(** A second account under alice's username, as [POST /api/users] lets an
    admin create it. *)
Definition alice2 : InsertUser.t :=
  {| InsertUser.username := "alice";
     InsertUser.password := "other-pw";
     InsertUser.firstName := "Alicia";
     InsertUser.lastName := "Other";
     InsertUser.email := "alicia@school.test";
     InsertUser.role := "admin";
     InsertUser.avatarUrl := None |}.

(** Bodies of [PATCH /api/users/:id]: one that makes a user a student, and
    one that also carries an [id]. *)
Definition toStudent : PatchBody := typed Sample.makeStudent.

Definition renumber : PatchBody :=
  {| patch_user := Sample.makeStudent; patch_id := Some 42;
     patch_createdAt := None |}.

End Demo.

Module Campus.

Definition math : Course.t :=
  {| Course.id := 1; Course.code := "MATH101"; Course.name := "Algebra";
     Course.description := None; Course.teacherId := Some 1;
     Course.credits := 4%Z; Course.semester := Some "Fall";
     Course.status := Some "active" |}.

Definition carolsGrade : Grade.t :=
  {| Grade.id := 1; Grade.studentId := 1; Grade.courseId := 1;
     Grade.score := 91%Z; Grade.grade := "A"; Grade.semester := "Fall";
     Grade.notes := None |}.

Definition othersGrade : Grade.t :=
  {| Grade.id := 2; Grade.studentId := 2; Grade.courseId := 1;
     Grade.score := 55%Z; Grade.grade := "D"; Grade.semester := "Fall";
     Grade.notes := None |}.

Definition records : Academic :=
  {| courses := [(1, math)]; enrollments := []; submissions := [];
     grades := [(1, carolsGrade); (2, othersGrade)];
     currentEnrollmentId := 1; currentSubmissionId := 1 |}.

(** The users and sessions of [Demo.st4] (carol is student 1, session
    ["sid-4"]; root is the admin, session ["sid-2"]) with one course and
    two grades. *)
Definition school : School := {| core := Demo.st4; academic := records |}.

Definition enrolCarol : InsertEnrollment.t :=
  {| InsertEnrollment.studentId := 1; InsertEnrollment.courseId := 1;
     InsertEnrollment.status := Some "enrolled" |}.

(** A submission whose body names student 2. *)
Definition homework : InsertSubmission.t :=
  {| InsertSubmission.assignmentId := 7; InsertSubmission.studentId := 2;
     InsertSubmission.content := Some "my answers";
     InsertSubmission.score := None; InsertSubmission.feedback := None;
     InsertSubmission.status := "submitted" |}.

(** carol's student profile and carol as her session resolves. *)
Definition carolProfile : Student.t :=
  {| Student.id := 1; Student.userId := 3; Student.studentId := "ST14321";
     Student.grade := "10"; Student.dateEnrolled := 4000;
     Student.status := "active"; Student.parentName := Some "Chris Clark";
     Student.parentEmail := None; Student.parentPhone := None;
     Student.address := None |}.

Definition carol : Express_User :=
  {| user_record :=
       snd (createUser 4000 Sample.st2
              (withPassword (reg_user Demo.carolBody)
                 (hashPassword Sample.stream Sample.ones "carol-pw")));
     studentInfo := Some carolProfile |}.

Definition asRoot {B : Type} (b : B) : Request B :=
  passport_session 5000 Demo.st4 (Some "sid-2") b.

Definition asCarol {B : Type} (b : B) : Request B :=
  passport_session 5000 Demo.st4 (Some "sid-4") b.

End Campus.

(** * Properties *)

(** ** Hexadecimal and splitting *)

Lemma decode_ofByte (b : byte) (rest : string) :
  Hex.decode (Hex.ofByte b ++ rest) = b :: Hex.decode rest.
Proof. destruct b; reflexivity. Qed.

Lemma decode_encode (bs : list byte) : Hex.decode (Hex.encode bs) = bs.
Proof.
  induction bs as [|b bs IH]; cbn [Hex.encode].
  - reflexivity.
  - rewrite decode_ofByte, IH. reflexivity.
Qed.

Lemma encode_injective (a b : list byte) :
  Hex.encode a = Hex.encode b -> a = b.
Proof.
  intros H. rewrite <- (decode_encode a), <- (decode_encode b), H.
  reflexivity.
Qed.

Lemma occurs_app (c : ascii) (s t : string) :
  occurs c (s ++ t) = occurs c s || occurs c t.
Proof.
  induction s as [|d s IH]; simpl.
  - reflexivity.
  - rewrite IH. apply orb_assoc.
Qed.

Lemma ofByte_no_dot (b : byte) : occurs "." (Hex.ofByte b) = false.
Proof. destruct b; reflexivity. Qed.

Lemma encode_no_dot (bs : list byte) : occurs "." (Hex.encode bs) = false.
Proof.
  induction bs as [|b bs IH]; cbn [Hex.encode].
  - reflexivity.
  - rewrite occurs_app, ofByte_no_dot, IH. reflexivity.
Qed.

Lemma split_no_sep (c : ascii) (s : string) :
  occurs c s = false -> split c s = [s].
Proof.
  induction s as [|d s IH]; simpl; intros H.
  - reflexivity.
  - apply orb_false_iff in H. destruct H as [Hd Hs].
    rewrite Hd, (IH Hs). reflexivity.
Qed.

Lemma split_at_first (c : ascii) (s t : string) :
  occurs c s = false -> split c (s ++ String c t) = s :: split c t.
Proof.
  induction s as [|d s IH]; simpl; intros H.
  - rewrite Ascii.eqb_refl. reflexivity.
  - apply orb_false_iff in H. destruct H as [Hd Hs].
    rewrite Hd, (IH Hs). reflexivity.
Qed.

Lemma buffer_eqb_refl (a : Buffer) : buffer_eqb a a = true.
Proof.
  induction a as [|x a IH]; simpl.
  - reflexivity.
  - unfold byte_eqb. rewrite (Byte.byte_dec_lb (eq_refl x)), IH. reflexivity.
Qed.

Lemma timingSafeEqual_refl (a : Buffer) : timingSafeEqual a a = Ok true.
Proof.
  unfold timingSafeEqual. rewrite Nat.eqb_refl, buffer_eqb_refl. reflexivity.
Qed.

Lemma scrypt_length stream (p s : string) (n : nat) :
  List.length (scrypt stream p s n) = n.
Proof. unfold scrypt. rewrite length_map, length_seq. reflexivity. Qed.

Lemma randomBytes_length (n : nat) (e : Entropy) :
  List.length (randomBytes n e) = n.
Proof. unfold randomBytes. rewrite length_map, length_seq. reflexivity. Qed.

(** The two components [comparePasswords] takes out of a fresh digest. *)
Lemma split_hashPassword stream (e : Entropy) (p : string) :
  split "." (hashPassword stream e p) =
  [Hex.encode (scrypt stream p (Hex.encode (randomBytes 16 e)) 64);
   Hex.encode (randomBytes 16 e)].
Proof.
  unfold hashPassword.
  change ("." ++ ?s) with (String "." s).
  rewrite split_at_first by apply encode_no_dot.
  rewrite split_no_sep by apply encode_no_dot.
  reflexivity.
Qed.

(** ** Password hasher *)

(** Verifies a password against the digest just made of it: the digest
    splits into its two components, the hash decodes back, and the key is
    derived again from the same salt. *)
Ltac verify_fresh_digest :=
  unfold comparePasswords; rewrite split_hashPassword;
  cbn [nth_error Buffer_from_hex scryptAsync bind];
  rewrite decode_encode; apply timingSafeEqual_refl.

(** C1: for every password [p] (and whatever salt the random source
    delivers), verifying [p] against the digest [hashPassword] made of [p]
    returns [true]. *)
Theorem comparePasswords_hashPassword stream (e : Entropy) (p : string) :
  comparePasswords stream p (hashPassword stream e p) = Ok true.
Proof. verify_fresh_digest. Qed.

Lemma saltOf_hashPassword stream (e : Entropy) (p : string) :
  saltOf (hashPassword stream e p) = Some (Hex.encode (randomBytes 16 e)).
Proof. unfold saltOf. rewrite split_hashPassword. reflexivity. Qed.

(** C8: two calls of [hashPassword] on one password, with the random source
    delivering two different 16-byte salts, return two different digests;
    each digest carries its own 16-byte salt and verifies against the
    password. *)
Theorem hashPassword_fresh_salts stream (e1 e2 : Entropy) (p : string) :
  randomBytes 16 e1 <> randomBytes 16 e2 ->
  hashPassword stream e1 p <> hashPassword stream e2 p
  /\ comparePasswords stream p (hashPassword stream e1 p) = Ok true
  /\ comparePasswords stream p (hashPassword stream e2 p) = Ok true
  /\ exists s1 s2,
       saltOf (hashPassword stream e1 p) = Some s1
       /\ saltOf (hashPassword stream e2 p) = Some s2
       /\ s1 <> s2
       /\ List.length (Hex.decode s1) = 16
       /\ List.length (Hex.decode s2) = 16.
Proof.
  intros Hsalt. repeat split.
  - intros Heq. apply Hsalt, encode_injective.
    pose proof (saltOf_hashPassword stream e1 p) as H1.
    pose proof (saltOf_hashPassword stream e2 p) as H2.
    rewrite Heq in H1. congruence.
  - verify_fresh_digest.
  - verify_fresh_digest.
  - exists (Hex.encode (randomBytes 16 e1)), (Hex.encode (randomBytes 16 e2)).
    repeat split; try apply saltOf_hashPassword.
    + intros Heq. apply Hsalt, encode_injective, Heq.
    + rewrite decode_encode. apply randomBytes_length.
    + rewrite decode_encode. apply randomBytes_length.
Qed.

Lemma hashPassword_fresh_salts_witness :
  randomBytes 16 Sample.zeros <> randomBytes 16 Sample.ones
  /\ hashPassword Sample.stream Sample.zeros "correct-pw"
     <> hashPassword Sample.stream Sample.ones "correct-pw".
Proof.
  assert (H : randomBytes 16 Sample.zeros <> randomBytes 16 Sample.ones)
    by (vm_compute; discriminate).
  split; [exact H|].
  exact (proj1 (hashPassword_fresh_salts Sample.stream "correct-pw" H)).
Defined.

Lemma unhex_bound (c : ascii) (v : N) : Hex.unhex c = Some v -> (v < 16)%N.
Proof.
  unfold Hex.unhex.
  repeat match goal with
         | |- context [if ?b then _ else _] => destruct b eqn:?
         end;
    intros H; inversion H; subst;
    repeat match goal with
           | E : (_ && _) = true |- _ =>
               apply andb_true_iff in E; destruct E as [?E1 ?E2]
           | E : N.leb _ _ = true |- _ => apply N.leb_le in E
           end; lia.
Qed.

Lemma of_N_two_digits (hi lo : N) :
  (hi < 16)%N -> (lo < 16)%N -> exists b, Byte.of_N (16 * hi + lo) = Some b.
Proof.
  intros Hhi Hlo. destruct (Byte.of_N (16 * hi + lo)) as [b|] eqn:E.
  - exists b. reflexivity.
  - apply Byte.of_N_None_iff in E. lia.
Qed.

(** A string of [2 n] hexadecimal digits decodes to [n] bytes. *)
Lemma decode_length (n : nat) :
  forall h, Hex.isHex h = true -> String.length h = 2 * n ->
            List.length (Hex.decode h) = n.
Proof.
  induction n as [|n IH]; intros h Hhex Hlen.
  - destruct h; [reflexivity | discriminate].
  - destruct h as [|c1 [|c2 rest]]; simpl in Hlen; try lia.
    cbn [Hex.isHex] in Hhex.
    apply andb_true_iff in Hhex. destruct Hhex as [H1 Hhex].
    apply andb_true_iff in Hhex. destruct Hhex as [H2 Hrest].
    unfold Hex.isDigit in H1, H2. cbn [Hex.decode].
    destruct (Hex.unhex c1) as [hi|] eqn:E1; [|discriminate].
    destruct (Hex.unhex c2) as [lo|] eqn:E2; [|discriminate].
    destruct (of_N_two_digits (unhex_bound _ E1) (unhex_bound _ E2)) as [b ->].
    cbn [List.length]. f_equal. apply IH; [exact Hrest | lia].
Qed.

(** On a well-formed digest [comparePasswords] returns a boolean. *)
Lemma comparePasswords_wellFormed stream (p d : string) :
  wellFormedDigest d = true -> exists b, comparePasswords stream p d = Ok b.
Proof.
  unfold comparePasswords, wellFormedDigest.
  destruct (split "." d) as [|h [|s [|x rest]]]; try discriminate.
  intros Hwf.
  apply andb_true_iff in Hwf. destruct Hwf as [Hwf _].
  apply andb_true_iff in Hwf. destruct Hwf as [Hhex Hlen].
  apply Nat.eqb_eq in Hlen.
  cbn [nth_error Buffer_from_hex scryptAsync bind]. unfold timingSafeEqual.
  rewrite scrypt_length, (@decode_length 64 h Hhex Hlen).
  eexists. reflexivity.
Qed.

(** What the verify callback and the login route do with an exception of
    [comparePasswords]: the strategy's [catch] hands it to [done(error)],
    and the route's callback to [next(err)]. *)
Lemma localStrategy_rethrows stream (st : MemStorage) (username p : string)
    (existing : User.t) (e : JsError) :
  getUserByUsername st username = Some existing ->
  comparePasswords stream p (User.password existing) = Throw e ->
  localStrategy stream st username p = Throw e
  /\ (username <> "" -> p <> "" ->
      forall (env : Env) (cookie : option string),
        login stream env st
          (passport_session (now env) st cookie (mkLogin username p))
        = (st, NextError e)).
Proof.
  intros Hsome Hthrow.
  assert (Hls : localStrategy stream st username p = Throw e).
  { unfold localStrategy. rewrite Hsome, Hthrow. reflexivity. }
  split; [exact Hls|].
  intros Hu Hp env cookie.
  unfold login, authenticate_local.
  cbn [body passport_session login_username login_password].
  apply String.eqb_neq in Hu. apply String.eqb_neq in Hp.
  rewrite Hu, Hp. cbn [orb]. rewrite Hls. reflexivity.
Qed.

(** C3, amended: [comparePasswords] throws on a malformed digest. Without a
    ['.'] the salt is [undefined] and scrypt rejects it (a TypeError); with
    a hash component that does not decode to 64 bytes [timingSafeEqual]
    rejects the lengths (a RangeError). A boolean comes back only when the
    hash component decodes to 64 bytes, and it does for every well-formed
    digest. When [d] is the stored password of the user a login names, the
    exception of [comparePasswords] is the result of the verify callback
    of [LocalStrategy] ([done(error)]), and the login route hands it to
    [next]. *)
Theorem comparePasswords_malformed stream (p d : string) :
  (occurs "." d = false ->
   comparePasswords stream p d = Throw ERR_INVALID_ARG_TYPE)
  /\ (forall h s,
        nth_error (split "." d) 0 = Some h -> saltOf d = Some s ->
        List.length (Hex.decode h) <> 64 ->
        comparePasswords stream p d = Throw ERR_CRYPTO_TIMING_SAFE_EQUAL_LENGTH)
  /\ (forall b,
        comparePasswords stream p d = Ok b ->
        exists h s,
          nth_error (split "." d) 0 = Some h /\ saltOf d = Some s
          /\ List.length (Hex.decode h) = 64
          /\ b = buffer_eqb (Hex.decode h) (scrypt stream p s 64))
  /\ (wellFormedDigest d = true ->
      exists b, comparePasswords stream p d = Ok b)
  /\ (forall (st : MemStorage) (username : string) (existing : User.t)
             (e : JsError),
        getUserByUsername st username = Some existing ->
        User.password existing = d ->
        comparePasswords stream p d = Throw e ->
        localStrategy stream st username p = Throw e
        /\ (username <> "" -> p <> "" ->
            forall (env : Env) (cookie : option string),
              login stream env st
                (passport_session (now env) st cookie (mkLogin username p))
              = (st, NextError e))).
Proof.
  split; [|split; [|split; [|split]]];
    [| | | |
     intros st username existing e Hsome <- Hthrow;
     exact (@localStrategy_rethrows stream st username p existing e
              Hsome Hthrow)];
    unfold comparePasswords, saltOf.
  - intros Hdot. rewrite (split_no_sep _ _ Hdot). reflexivity.
  - intros h s Hh Hs Hlen. rewrite Hh, Hs.
    cbn [Buffer_from_hex scryptAsync bind]. unfold timingSafeEqual.
    rewrite scrypt_length.
    destruct (Nat.eqb_spec (List.length (Hex.decode h)) 64); [contradiction|].
    reflexivity.
  - intros b.
    destruct (nth_error (split "." d) 0) as [h|]; [|discriminate].
    destruct (nth_error (split "." d) 1) as [s|]; [|discriminate].
    cbn [Buffer_from_hex scryptAsync bind]. unfold timingSafeEqual.
    rewrite scrypt_length.
    destruct (Nat.eqb_spec (List.length (Hex.decode h)) 64) as [Hlen|];
      [|discriminate].
    intros H. inversion H. exists h, s. repeat split. exact Hlen.
  - apply comparePasswords_wellFormed.
Qed.

Lemma comparePasswords_malformed_witness :
  occurs "." "secret1" = false
  /\ comparePasswords Sample.stream "hunter2" "secret1"
     = Throw ERR_INVALID_ARG_TYPE.
Proof.
  split; [reflexivity|].
  apply (proj1 (comparePasswords_malformed Sample.stream "hunter2" "secret1")).
  reflexivity.
Defined.

(** C3 as stated fails: on a digest without delimiter, and on one whose hash
    component has the wrong length, [comparePasswords] throws instead of
    returning [false]. *)
Lemma comparePasswords_malformed_counterexample :
  wellFormedDigest "secret1" = false
  /\ comparePasswords Sample.stream "hunter2" "secret1"
     = Throw ERR_INVALID_ARG_TYPE
  /\ wellFormedDigest "abcd.00ff" = false
  /\ comparePasswords Sample.stream "hunter2" "abcd.00ff"
     = Throw ERR_CRYPTO_TIMING_SAFE_EQUAL_LENGTH.
Proof. repeat split. Qed.

(** ** Authorization guard *)

Lemma includes_In (roles : list string) (r : string) :
  includes roles r = true <-> In r roles.
Proof.
  unfold includes. rewrite existsb_exists. split.
  - intros [x [Hin Heq]]. apply String.eqb_eq in Heq. subst. exact Hin.
  - intros Hin. exists r. split; [exact Hin | apply String.eqb_refl].
Qed.

Lemma includes_not_In (roles : list string) (r : string) :
  includes roles r = false <-> ~ In r roles.
Proof.
  rewrite <- includes_In. destruct (includes roles r); split; intros H;
    congruence.
Qed.

(** C5: behind [hasRole roles], a request without authenticated user is
    answered 401 whatever the roles are; an authenticated user whose role is
    not among the roles is answered 403; one whose role is among them is let
    through. With the roles [["admin"]], a teacher gets 403 and an admin
    passes. *)
Theorem hasRole_guard (B : Type) (roles : list string) (req : Request B) :
  (user req = None ->
   hasRole roles req
   = Sent {| status := 401; payload := JMessage "Not authenticated" |})
  /\ (forall u, user req = Some u ->
        ~ In (User.role (user_record u)) roles ->
        hasRole roles req
        = Sent {| status := 403;
                  payload := JMessage "Forbidden: insufficient permissions" |})
  /\ (forall u, user req = Some u ->
        In (User.role (user_record u)) roles ->
        hasRole roles req = Next)
  /\ (forall u, user req = Some u ->
        User.role (user_record u) = "teacher" ->
        hasRole ["admin"] req
        = Sent {| status := 403;
                  payload := JMessage "Forbidden: insufficient permissions" |})
  /\ (forall u, user req = Some u ->
        User.role (user_record u) = "admin" ->
        hasRole ["admin"] req = Next).
Proof.
  unfold hasRole. repeat apply conj.
  - intros ->. reflexivity.
  - intros u -> Hnot. apply includes_not_In in Hnot. rewrite Hnot. reflexivity.
  - intros u -> Hin. apply includes_In in Hin. rewrite Hin. reflexivity.
  - intros u -> ->. reflexivity.
  - intros u -> ->. reflexivity.
Qed.

Lemma hasRole_guard_witness :
  option_map (fun u => User.role (user_record u))
    (user (passport_session 3000 Sample.st2 (Some "sid-1") tt))
  = Some "teacher"
  /\ hasRole ["admin"] (passport_session 3000 Sample.st2 (Some "sid-1") tt)
     = Sent {| status := 403;
               payload := JMessage "Forbidden: insufficient permissions" |}.
Proof.
  split; [reflexivity|].
  refine (proj1 (proj2 (proj2 (proj2
            (hasRole_guard ["admin"]
               (passport_session 3000 Sample.st2 (Some "sid-1") tt)))))
            _ _ _).
  - vm_compute. reflexivity.
  - reflexivity.
Defined.

(** ** The session at the end of a response *)

Lemma touch_data (env : Env) (st : MemStorage) (c : option string)
    (st1 : MemStorage) :
  sameData st1 (touch env st c st1).
Proof.
  unfold touch, sameData.
  destruct c as [s|]; [|repeat split].
  destruct (store_get s (sessionStore st)) as [r|]; [|repeat split].
  destruct (N.leb (now env) (expires r)); repeat split.
Qed.

Lemma touch_users (env : Env) (st : MemStorage) (c : option string)
    (st1 : MemStorage) :
  users (touch env st c st1) = users st1.
Proof. apply touch_data. Qed.

Lemma touch_students (env : Env) (st : MemStorage) (c : option string)
    (st1 : MemStorage) :
  students (touch env st c st1) = students st1.
Proof. apply touch_data. Qed.

Lemma touch_activities (env : Env) (st : MemStorage) (c : option string)
    (st1 : MemStorage) :
  activities (touch env st c st1) = activities st1.
Proof. apply touch_data. Qed.

(** The answer of a call is the one of its route. *)
Lemma serve_answer stream (env : Env) (st : MemStorage) (call : ApiCall) :
  snd (serve stream env st call) = snd (route stream env st call).
Proof. reflexivity. Qed.

(** The users, students and activities after a call are the ones its route
    left. *)
Lemma serve_data stream (env : Env) (st : MemStorage) (call : ApiCall) :
  sameData (fst (route stream env st call)) (fst (serve stream env st call)).
Proof.
  unfold serve. cbn [fst].
  destruct (regenerates call (snd (route stream env st call))).
  - repeat split.
  - apply touch_data.
Qed.

(** A call whose route left the store alone and did not regenerate the
    session. *)
Lemma serve_refused stream (env : Env) (st : MemStorage) (call : ApiCall)
    (r : Response) :
  route stream env st call = (st, Respond r) ->
  regenerates call (Respond r) = false ->
  serve stream env st call = (touch env st (cookieOf call) st, Respond r).
Proof.
  intros Hroute Hregen. unfold serve. rewrite Hroute. cbn [fst snd].
  rewrite Hregen. reflexivity.
Qed.

(** An accepted login and an accepted registration end under the session
    [req.login] made: the store is the one the route left. *)
Lemma serve_login_accepted stream (env : Env) (st : MemStorage)
    (c : option string) (credentials : LoginData) (u : Express_User) :
  authenticate_local stream st credentials = Ok (Some u) ->
  serve stream env st (PostLogin c credentials)
  = login stream env st (passport_session (now env) st c credentials).
Proof.
  intros Hauth. unfold serve. cbn [route regenerates]. unfold login.
  cbn [body passport_session]. rewrite Hauth. reflexivity.
Qed.

Lemma serve_register_new stream (env : Env) (st : MemStorage)
    (c : option string) (b : RegisterBody) :
  getUserByUsername st (InsertUser.username (reg_user b)) = None ->
  serve stream env st (PostRegister c b)
  = register stream env st (passport_session (now env) st c b).
Proof.
  intros Hnew. unfold serve. cbn [route regenerates]. unfold register, registerCommit.
  cbn [body passport_session]. rewrite Hnew. cbn [createUser].
  destruct (isStudent _); reflexivity.
Qed.

(** ** Login *)







(** ** The in-memory store *)

Section MapFacts.

Variable V : Type.

Lemma map_get_set_same (k : nat) (v : V) (m : JsMap V) :
  map_get k (map_set k v m) = Some v.
Proof.
  induction m as [|[k' v'] m IH]; simpl.
  - rewrite Nat.eqb_refl. reflexivity.
  - destruct (Nat.eqb k k') eqn:E; simpl.
    + rewrite Nat.eqb_refl. reflexivity.
    + rewrite E. exact IH.
Qed.

Lemma map_get_set_other (k k' : nat) (v : V) (m : JsMap V) :
  k <> k' -> map_get k (map_set k' v m) = map_get k m.
Proof.
  intros Hne. induction m as [|[j w] m IH]; simpl.
  - apply Nat.eqb_neq in Hne. rewrite Hne. reflexivity.
  - destruct (Nat.eqb k' j) eqn:E; simpl.
    + apply Nat.eqb_eq in E. subst j.
      apply Nat.eqb_neq in Hne. rewrite Hne. reflexivity.
    + destruct (Nat.eqb k j); [reflexivity | exact IH].
Qed.

End MapFacts.

Lemma store_get_destroy (s c : string) (m : SessionStore) :
  store_get s (store_destroy c m)
  = if String.eqb s c then None else store_get s m.
Proof.
  induction m as [|[k r] m IH]; simpl.
  - destruct (String.eqb s c); reflexivity.
  - destruct (String.eqb c k) eqn:Eck; simpl.
    + rewrite IH. destruct (String.eqb s c) eqn:Esc; [reflexivity|].
      apply String.eqb_eq in Eck. subst k. rewrite Esc. reflexivity.
    + rewrite IH. destruct (String.eqb s c) eqn:Esc; [|reflexivity].
      apply String.eqb_eq in Esc. subst s. rewrite Eck. reflexivity.
Qed.

Lemma store_get_set (s k : string) (r : SessionRecord) (m : SessionStore) :
  store_get s (store_set k r m)
  = if String.eqb s k then Some r else store_get s m.
Proof.
  unfold store_set. simpl. rewrite store_get_destroy.
  destruct (String.eqb s k); reflexivity.
Qed.

Lemma store_destroy_absent (s : string) (m : SessionStore) :
  store_get s m = None -> store_destroy s m = m.
Proof.
  induction m as [|[k r] m IH]; simpl; intros H.
  - reflexivity.
  - destruct (String.eqb s k); [discriminate|]. simpl. rewrite (IH H).
    reflexivity.
Qed.

Lemma withSessions_same (st : MemStorage) :
  withSessions st (sessionStore st) = st.
Proof. destruct st. reflexivity. Qed.

(** The sessions after a response that ended under the session of its
    cookie: no session id is new, and none gained a user. *)
Lemma touch_sessions (env : Env) (st : MemStorage) (c : option string)
    (s : string) (r' : SessionRecord) :
  store_get s (sessionStore (touch env st c st)) = Some r' ->
  exists r, store_get s (sessionStore st) = Some r
            /\ (passport_user r' = passport_user r
                \/ passport_user r' = None).
Proof.
  unfold touch. destruct c as [k|]; [|intros H; exists r'; auto].
  destruct (store_get k (sessionStore st)) as [rk|] eqn:Ek;
    [|intros H; exists r'; auto].
  destruct (N.leb (now env) (expires rk)); cbn [sessionStore withSessions].
  - rewrite store_get_set. destruct (String.eqb_spec s k) as [->|Hne].
    + intros H. inversion H. exists rk. split; [exact Ek|].
      cbn [passport_user]. destruct (resolveSession _ _ _); auto.
    + intros H. exists r'. auto.
  - rewrite store_get_destroy. destruct (String.eqb s k); [discriminate|].
    intros H. exists r'. auto.
Qed.

(** ** Registration *)

(** C10: a registration under a username that is already in the user store
    is answered 400 by the route before any write. Users, students,
    activities and counters are those of before, and no session is
    established: no session id is new and none gained a user. What changes
    is what [express-session] does at the end of every response, the
    write-back of the session of the cookie; a request without cookie
    leaves the whole store as it was. *)
Theorem register_duplicate_username stream (env : Env) (st : MemStorage)
    (cookie : option string) (b : RegisterBody) (existing : User.t) :
  getUserByUsername st (InsertUser.username (reg_user b)) = Some existing ->
  register stream env st (passport_session (now env) st cookie b)
  = (st, Respond {| status := 400;
                    payload := JMessage "Username already exists" |})
  /\ serve stream env st (PostRegister cookie b)
     = (touch env st cookie st,
        Respond {| status := 400;
                   payload := JMessage "Username already exists" |})
  /\ sameData st (fst (serve stream env st (PostRegister cookie b)))
  /\ (forall s r',
        store_get s (sessionStore
                       (fst (serve stream env st (PostRegister cookie b))))
        = Some r' ->
        exists r, store_get s (sessionStore st) = Some r
                  /\ (passport_user r' = passport_user r
                      \/ passport_user r' = None))
  /\ serve stream env st (PostRegister None b)
     = (st, Respond {| status := 400;
                       payload := JMessage "Username already exists" |}).
Proof.
  intros Hdup.
  assert (Hroute : forall c,
             route stream env st (PostRegister c b)
             = (st, Respond {| status := 400;
                               payload := JMessage "Username already exists" |})).
  { intros c. cbn [route]. unfold register, registerCommit. cbn [body passport_session].
    rewrite Hdup. reflexivity. }
  assert (Hserve : forall c,
             serve stream env st (PostRegister c b)
             = (touch env st c st,
                Respond {| status := 400;
                           payload := JMessage "Username already exists" |})).
  { intros c. exact (@serve_refused stream env st (PostRegister c b) _
                       (Hroute c) eq_refl). }
  split; [exact (Hroute cookie)|].
  split; [exact (Hserve cookie)|].
  split; [rewrite Hserve; apply touch_data|].
  split; [|exact (Hserve None)].
  intros s r'. rewrite Hserve. apply touch_sessions.
Qed.

Lemma register_duplicate_username_witness :
  getUserByUsername Sample.st2 "alice" <> None
  /\ serve Sample.stream Sample.env3 Sample.st2
       (PostRegister None Sample.aliceBody)
     = (Sample.st2,
        Respond {| status := 400;
                   payload := JMessage "Username already exists" |})
  /\ users (fst (serve Sample.stream Sample.env3 Sample.st2
                   (PostRegister (Some "sid-1") Sample.aliceBody)))
     = users Sample.st2.
Proof.
  split; [vm_compute; discriminate|].
  destruct (@register_duplicate_username Sample.stream Sample.env3 Sample.st2
              (Some "sid-1") Sample.aliceBody
              (snd (createUser 1000 newMemStorage
                      (withPassword (reg_user Sample.aliceBody)
                         (hashPassword Sample.stream Sample.zeros
                            "correct-pw")))))
    as [_ [_ [Hdata [_ Hnone]]]].
  - vm_compute. reflexivity.
  - split; [exact Hnone | exact (proj1 Hdata)].
Defined.

(** A registration under a new username files the digest of the password,
    made with the salt the random source delivers. *)
Lemma register_stores_digest stream (env : Env) (st : MemStorage)
    (cookie : option string) (b : RegisterBody) :
  getUserByUsername st (InsertUser.username (reg_user b)) = None ->
  option_map User.password
    (getUser (fst (serve stream env st (PostRegister cookie b)))
             (currentUserId st))
  = Some (hashPassword stream (entropy env)
            (InsertUser.password (reg_user b))).
Proof.
  intros Hnew. unfold getUser.
  rewrite (proj1 (serve_data stream env st (PostRegister cookie b))).
  cbn [route]. unfold register, registerCommit. cbn [body passport_session].
  rewrite Hnew. cbn [createUser].
  match goal with
  | |- context [if ?c then _ else _] => destruct c
  end; cbn; rewrite map_get_set_same; reflexivity.
Qed.

(** [PATCH /api/users/:id] leaves the password on file as it is. *)
Lemma patchUser_keeps_password (env : Env) (st : MemStorage) (id : nat)
    (req : Request PatchBody) :
  option_map User.password (getUser (fst (patchUser env st id req)) id)
  = option_map User.password (getUser st id).
Proof.
  unfold patchUser. cbn [behind].
  destruct (isAuthenticated req); [|reflexivity].
  destruct (hasRole ["admin"] req); [|reflexivity].
  unfold updateUserWith, getUser.
  destruct (map_get id (users st)) as [u|] eqn:E; cbn.
  - rewrite map_get_set_same. reflexivity.
  - rewrite E. reflexivity.
Qed.

(** [POST /api/users] by an admin files the password of the body as it was
    sent. *)
Lemma postUsers_password_as_sent (env : Env) (st : MemStorage)
    (req : Request InsertUser.t) (admin : Express_User) :
  user req = Some admin ->
  User.role (user_record admin) = "admin" ->
  insertUserSchema (body req) = true ->
  option_map User.password (getUser (fst (postUsers env st req))
                                    (currentUserId st))
  = Some (InsertUser.password (body req)).
Proof.
  intros Huser Hrole Hvalid. unfold postUsers. cbn [behind].
  unfold isAuthenticated, req_isAuthenticated, hasRole, validateBody.
  rewrite Huser, Hrole, Hvalid. cbn. unfold getUser. cbn.
  rewrite map_get_set_same. reflexivity.
Qed.

(** C2, on the code: the registration of alice files the salted digest of
    her password, and the admin's [POST /api/users] for bob files his
    password ["secret1"] as it was sent. *)
Theorem postUsers_stores_plaintext :
  option_map User.password (getUserByUsername Sample.st1 "alice")
  = Some (hashPassword Sample.stream Sample.zeros "correct-pw")
  /\ snd (serve Sample.stream Sample.env3 Sample.st2
            (PostUsers (Some "sid-2") Sample.bob))
     = Respond {| status := 201;
                  payload :=
                    JUser (omitPassword
                             (snd (createUser 3000 Sample.st2 Sample.bob)))
                          None |}
  /\ option_map User.password (getUserByUsername Sample.st3 "bob")
     = Some "secret1".
Proof. repeat apply conj; vm_compute; reflexivity. Qed.

(** The user whose password was filed as sent cannot log in, whatever the
    password: the stored value has no salt component and the comparison
    throws. *)
Example login_after_postUsers :
  snd (serve Sample.stream Sample.env3 Sample.st3
         (PostLogin None (mkLogin "bob" "secret1")))
  = NextError ERR_INVALID_ARG_TYPE.
Proof. vm_compute. reflexivity. Qed.

(** ** Session resolution *)

(** C7: a session whose stored user id is not in the user store resolves to
    no user: [req.user] stays unset, [GET /api/user] answers 401 as it does
    to a request without session, and the guards answer 401. Users,
    students and activities are not touched. The session does not resolve
    afterwards either: [passport] takes the user id out of it and the
    session is saved without it (or, when it was stale, it is gone). *)
Theorem orphaned_session_unauthenticated stream (env : Env) (st : MemStorage)
    (sid : string) (r : SessionRecord) (id : nat) :
  store_get sid (sessionStore st) = Some r ->
  passport_user r = Some id ->
  getUser st id = None ->
  resolveSession (now env) st (Some sid) = None
  /\ snd (serve stream env st (GetUser (Some sid)))
     = Respond {| status := 401; payload := JText "Unauthorized" |}
  /\ snd (serve stream env st (GetUser (Some sid)))
     = snd (serve stream env st (GetUser None))
  /\ sameData st (fst (serve stream env st (GetUser (Some sid))))
  /\ store_get sid (sessionStore (fst (serve stream env st (GetUser (Some sid)))))
     = (if N.leb (now env) (expires r)
        then Some {| passport_user := None;
                     expires := (now env + maxAge)%N |}
        else None)
  /\ (forall t,
        resolveSession t (fst (serve stream env st (GetUser (Some sid))))
          (Some sid) = None)
  /\ forall (B : Type) (b : B) (roles : list string),
       isAuthenticated (passport_session (now env) st (Some sid) b)
       = Sent {| status := 401; payload := JMessage "Not authenticated" |}
       /\ hasRole roles (passport_session (now env) st (Some sid) b)
          = Sent {| status := 401; payload := JMessage "Not authenticated" |}.
Proof.
  intros Hget Huser Hmissing.
  assert (Hres : resolveSession (now env) st (Some sid) = None).
  { unfold resolveSession, loadSession. rewrite Hget.
    destruct (N.leb (now env) (expires r)); [|reflexivity].
    rewrite Huser. unfold deserializeUser. rewrite Hmissing. reflexivity. }
  assert (Hserve : serve stream env st (GetUser (Some sid))
                   = (touch env st (Some sid) st,
                      Respond {| status := 401;
                                 payload := JText "Unauthorized" |})).
  { apply (@serve_refused stream env st (GetUser (Some sid)));
      [|reflexivity].
    cbn [route]. unfold getCurrentUser, passport_session. cbn [user].
    rewrite Hres. reflexivity. }
  assert (Hrecord :
            store_get sid (sessionStore (touch env st (Some sid) st))
            = (if N.leb (now env) (expires r)
               then Some {| passport_user := None;
                            expires := (now env + maxAge)%N |}
               else None)).
  { unfold touch. rewrite Hget, Hres.
    destruct (N.leb (now env) (expires r)); cbn [sessionStore withSessions].
    - rewrite store_get_set, String.eqb_refl. reflexivity.
    - rewrite store_get_destroy, String.eqb_refl. reflexivity. }
  split; [exact Hres|].
  split; [rewrite Hserve; reflexivity|].
  split; [rewrite Hserve; reflexivity|].
  split; [rewrite Hserve; apply touch_data|].
  split; [rewrite Hserve; exact Hrecord|].
  split.
  - intros t. rewrite Hserve. cbn [fst].
    unfold resolveSession, loadSession. rewrite Hrecord.
    destruct (N.leb (now env) (expires r)); [|reflexivity].
    cbn [expires passport_user].
    destruct (N.leb t (now env + maxAge)); reflexivity.
  - intros B b roles.
    unfold isAuthenticated, req_isAuthenticated, hasRole, passport_session.
    cbn [user]. rewrite Hres. split; reflexivity.
Qed.

Lemma orphaned_session_unauthenticated_witness :
  store_get "sid-9" (sessionStore Sample.orphaned)
  = Some {| passport_user := Some 99; expires := 5000 |}
  /\ getUser Sample.orphaned 99 = None
  /\ resolveSession 3000 Sample.orphaned (Some "sid-9") = None
  /\ snd (serve Sample.stream Sample.env3 Sample.orphaned
            (GetUser (Some "sid-9")))
     = Respond {| status := 401; payload := JText "Unauthorized" |}.
Proof.
  split; [reflexivity|]. split; [reflexivity|].
  destruct (@orphaned_session_unauthenticated Sample.stream Sample.env3
              Sample.orphaned "sid-9"
              {| passport_user := Some 99; expires := 5000 |} 99)
    as [Hres [Hanswer _]]; try reflexivity.
  split; [exact Hres | exact Hanswer].
Defined.

(** The users of the store stay filed under their own ids. *)
Lemma keyed_new : keyed newMemStorage.
Proof. intros k u H. discriminate H. Qed.

Lemma keyed_set (st : MemStorage) (id : nat) (u : User.t) :
  keyed st -> User.id u = id ->
  forall k v, map_get k (map_set id u (users st)) = Some v -> User.id v = k.
Proof.
  intros Hk Hid k v. destruct (Nat.eq_dec k id) as [->|Hne].
  - rewrite map_get_set_same. intros H. inversion H. subst. reflexivity.
  - rewrite map_get_set_other by exact Hne. apply Hk.
Qed.

Lemma keyed_same_users (st st' : MemStorage) :
  users st' = users st -> keyed st -> keyed st'.
Proof. unfold keyed. intros ->. exact (fun H => H). Qed.

Lemma keyed_createUser (t : N) (st : MemStorage) (u : InsertUser.t) :
  keyed st -> keyed (fst (createUser t st u)).
Proof.
  intros Hk k v. cbn. apply keyed_set; [exact Hk |].
  reflexivity.
Qed.

Lemma keyed_updateUserWith (st : MemStorage) (id : nat) (b : PatchBody) :
  patch_id b = None -> keyed st -> keyed (fst (updateUserWith st id b)).
Proof.
  intros Hid Hk. unfold updateUserWith.
  destruct (map_get id (users st)) as [u|] eqn:E; [|exact Hk].
  intros k v. cbn [fst users]. apply keyed_set; [exact Hk |].
  unfold spreadBody. cbn [User.id]. rewrite Hid. cbn [or_else mergeUser User.id].
  apply Hk. exact E.
Qed.

Lemma keyed_updateUser (st : MemStorage) (id : nat) (patch : PartialUser.t) :
  keyed st -> keyed (fst (updateUser st id patch)).
Proof. apply keyed_updateUserWith. reflexivity. Qed.



(** The users stay filed under their ids through every call whose body
    does not carry another id. *)
Lemma keyed_route stream (env : Env) (st : MemStorage) (call : ApiCall) :
  carriesNoId call -> keyed st -> keyed (fst (route stream env st call)).
Proof.
  intros Hid Hk. destruct call as [c b|c b|c|c|c b|c id b]; cbn [route].
  - unfold register, registerCommit. cbn [body passport_session].
    destruct (getUserByUsername st _); [exact Hk|].
    cbn [createUser]. destruct (isStudent _); cbn;
      intros k v; apply keyed_set; try exact Hk;
      reflexivity.
  - unfold login. destruct (authenticate_local stream st _) as [[u|]|e];
      exact Hk.
  - unfold logout. cbn [user sessionID passport_session].
    apply (@keyed_same_users st); [|exact Hk].
    destruct (resolveSession _ _ _); reflexivity.
  - unfold getCurrentUser. destruct (user _); exact Hk.
  - unfold postUsers. cbn [behind].
    destruct (isAuthenticated _); [|exact Hk].
    destruct (hasRole _ _); [|exact Hk].
    destruct (validateBody _ _); [|exact Hk].
    cbn. intros k v; apply keyed_set; try exact Hk.
    reflexivity.
  - unfold patchUser. cbn [behind].
    destruct (isAuthenticated _); [|exact Hk].
    destruct (hasRole _ _); [|exact Hk].
    cbn [carriesNoId] in Hid.
    pose proof (@keyed_updateUserWith st id
                  (dropPassword (body (passport_session (now env) st c b)))
                  Hid Hk) as Hupd.
    destruct (updateUserWith st id _) as [st1 [u|]]; exact Hupd.
Qed.

Lemma keyed_serve stream (env : Env) (st : MemStorage) (call : ApiCall) :
  carriesNoId call -> keyed st -> keyed (fst (serve stream env st call)).
Proof.
  intros Hid Hk.
  apply (@keyed_same_users (fst (route stream env st call)));
    [apply serve_data | apply keyed_route; assumption].
Qed.


(** Through the routes: alice holds session ["sid-1"] as a teacher; the
    admin makes her a student; her next [GET /api/user] shows the new role. *)
Example role_change_on_next_request :
  option_map (fun u => User.role (user_record u))
    (resolveSession 3000 Sample.st2 (Some "sid-1")) = Some "teacher"
  /\ snd (serve Sample.stream Sample.env3
            (run Sample.stream Sample.st2
               [(Sample.env3, PatchUser (Some "sid-2") 1 Demo.toStudent)])
            (GetUser (Some "sid-1")))
     = Respond
         {| status := 200;
            payload :=
              JUser (omitPassword
                       (mergeUser (user_record Sample.alice)
                          Sample.makeStudent))
                    None |}.
Proof. split; vm_compute; reflexivity. Qed.

(** ** Logout *)

Lemma unbound_resolve (s : string) (st : MemStorage) (t : N) :
  unbound s st -> resolveSession t st (Some s) = None.
Proof.
  unfold unbound, resolveSession, loadSession. intros Hun.
  destruct (store_get s (sessionStore st)) as [r|]; [|reflexivity].
  destruct (N.leb t (expires r)); [|reflexivity].
  rewrite (Hun r eq_refl). reflexivity.
Qed.

Lemma noSession_unbound (s : string) (st : MemStorage) :
  noSession s st -> unbound s st.
Proof. unfold noSession, unbound. intros -> r H. discriminate H. Qed.

Lemma unbound_same_sessions (s : string) (st st' : MemStorage) :
  sessionStore st' = sessionStore st -> unbound s st -> unbound s st'.
Proof. unfold unbound. intros ->. exact (fun H => H). Qed.

Lemma unbound_req_login (s : string) (env : Env) (st : MemStorage)
    (c : option string) (p : Express_User) :
  unbound s st -> genid env <> s -> unbound s (req_login env st c p).
Proof.
  unfold unbound, req_login. intros Hun Hne r.
  cbn [sessionStore withSessions]. rewrite store_get_set.
  destruct (String.eqb_spec s (genid env)) as [->|_]; [contradiction|].
  destruct c as [c|]; [|apply Hun].
  rewrite store_get_destroy. destruct (String.eqb s c); [discriminate|].
  apply Hun.
Qed.

(** After [req.logout] the session of the cookie carries no user, and
    neither does the new one. *)
Lemma unbound_req_logout (s : string) (env : Env) (st : MemStorage)
    (c : option string) :
  c = Some s \/ unbound s st -> unbound s (req_logout env st c).
Proof.
  unfold unbound, req_logout. intros Hun r.
  cbn [sessionStore withSessions]. rewrite store_get_set.
  destruct (String.eqb s (genid env)).
  { intros H. inversion H. reflexivity. }
  destruct Hun as [->|Hun].
  - rewrite store_get_destroy, String.eqb_refl. discriminate.
  - destruct c as [c|]; [|apply Hun].
    rewrite store_get_destroy. destruct (String.eqb s c); [discriminate|].
    apply Hun.
Qed.

Lemma unbound_touch (s : string) (env : Env) (st : MemStorage)
    (c : option string) (st1 : MemStorage) :
  unbound s st -> unbound s st1 -> unbound s (touch env st c st1).
Proof.
  unfold touch. intros Hun Hun1. destruct c as [k|]; [|exact Hun1].
  destruct (store_get k (sessionStore st)) as [rk|] eqn:Ek; [|exact Hun1].
  destruct (N.leb (now env) (expires rk)); intros r;
    cbn [sessionStore withSessions].
  - rewrite store_get_set. destruct (String.eqb_spec s k) as [->|Hne].
    + intros H. inversion H. cbn [passport_user].
      rewrite (Hun rk Ek). destruct (resolveSession _ _ _); reflexivity.
    + apply Hun1.
  - rewrite store_get_destroy. destruct (String.eqb s k); [discriminate|].
    apply Hun1.
Qed.

(** A call that does not generate the id [s] does not give the session [s]
    a user. *)
Lemma unbound_route stream (s : string) (env : Env) (st : MemStorage)
    (call : ApiCall) :
  unbound s st -> genid env <> s ->
  unbound s (fst (route stream env st call)).
Proof.
  intros Hun Hne. destruct call as [c b|c b|c|c|c b|c id b]; cbn [route].
  - unfold register, registerCommit. cbn [body passport_session sessionID].
    destruct (getUserByUsername st _); [exact Hun|].
    cbn [createUser].
    destruct (isStudent _); cbn [createStudent createActivity fst];
      apply unbound_req_login; try exact Hne; exact Hun.
  - unfold login. destruct (authenticate_local stream st _) as [[u|]|e];
      try exact Hun.
    cbn [createActivity fst].
    apply (@unbound_same_sessions s
             (req_login env st
                (sessionID (passport_session (now env) st c b)) u));
      [reflexivity|].
    apply unbound_req_login; assumption.
  - unfold logout. cbn [user sessionID passport_session fst].
    apply unbound_req_logout. right.
    destruct (resolveSession _ _ _); exact Hun.
  - unfold getCurrentUser. destruct (user _); exact Hun.
  - unfold postUsers. cbn [behind].
    destruct (isAuthenticated _); [|exact Hun].
    destruct (hasRole _ _); [|exact Hun].
    destruct (validateBody _ _); exact Hun.
  - unfold patchUser. cbn [behind].
    destruct (isAuthenticated _); [|exact Hun].
    destruct (hasRole _ _); [|exact Hun].
    unfold updateUserWith. destruct (map_get id (users st)); exact Hun.
Qed.

Lemma unbound_serve stream (s : string) (env : Env) (st : MemStorage)
    (call : ApiCall) :
  unbound s st -> genid env <> s ->
  unbound s (fst (serve stream env st call)).
Proof.
  intros Hun Hne. unfold serve. cbn [fst].
  pose proof (@unbound_route stream s env st call Hun Hne) as Hroute.
  destruct (regenerates call _); [exact Hroute|].
  apply unbound_touch; assumption.
Qed.

Lemma unbound_run stream (s : string) (calls : list (Env * ApiCall)) :
  forall st,
    unbound s st ->
    Forall (fun ec => genid (fst ec) <> s) calls ->
    unbound s (run stream st calls).
Proof.
  induction calls as [|[env call] calls IH]; intros st Hun Hall; cbn [run].
  - exact Hun.
  - inversion Hall as [|x l Hhead Htail]; subst.
    apply IH; [|exact Htail].
    apply unbound_serve; [exact Hun | exact Hhead].
Qed.

(** The logout of a session that resolves to no user: the answer is 200,
    the record of the session (if any) leaves the store, and the new, empty
    session is saved under the generated id. *)
Lemma logout_unresolved stream (env : Env) (st : MemStorage) (s : string) :
  resolveSession (now env) st (Some s) = None ->
  serve stream env st (PostLogout (Some s))
  = (withSessions st
       (store_set (genid env) (emptySession env)
          (store_destroy s (sessionStore st))),
     Respond loggedOut).
Proof.
  intros Hres. unfold serve. cbn [regenerates route]. unfold logout.
  cbn [user sessionID passport_session fst snd]. rewrite Hres.
  reflexivity.
Qed.

(** C9: the logout route answers 200 and takes the session's record out of
    the store. From then on the session id resolves to no user, also after
    any further calls (as long as the id is not generated again). A second
    logout, or the logout of a session that never existed, is not an error:
    it answers 200 again, the session id still resolves to no user, and
    users, students and activities stay as they are; what a logout writes
    then is the new, empty session that every logout saves under the id
    generated for it. *)
Theorem logout_destroys_session stream (env env' : Env) (st : MemStorage)
    (s : string) (calls : list (Env * ApiCall)) (t : N) :
  Forall (fun ec => genid (fst ec) <> s) calls ->
  snd (serve stream env st (PostLogout (Some s))) = Respond loggedOut
  /\ resolveSession t (fst (serve stream env st (PostLogout (Some s))))
       (Some s) = None
  /\ resolveSession t
       (run stream (fst (serve stream env st (PostLogout (Some s)))) calls)
       (Some s) = None
  /\ serve stream env' (fst (serve stream env st (PostLogout (Some s))))
       (PostLogout (Some s))
     = (withSessions (fst (serve stream env st (PostLogout (Some s))))
          (store_set (genid env') (emptySession env')
             (store_destroy s
                (sessionStore
                   (fst (serve stream env st (PostLogout (Some s))))))),
        Respond loggedOut)
  /\ resolveSession t
       (fst (serve stream env'
               (fst (serve stream env st (PostLogout (Some s))))
               (PostLogout (Some s))))
       (Some s) = None
  /\ sameData (fst (serve stream env st (PostLogout (Some s))))
       (fst (serve stream env'
               (fst (serve stream env st (PostLogout (Some s))))
               (PostLogout (Some s))))
  /\ (noSession s st ->
      serve stream env st (PostLogout (Some s))
      = (withSessions st
           (store_set (genid env) (emptySession env) (sessionStore st)),
         Respond loggedOut)
      /\ resolveSession t (fst (serve stream env st (PostLogout (Some s))))
           (Some s) = None).
Proof.
  intros Hall.
  assert (Hun : unbound s (fst (serve stream env st (PostLogout (Some s))))).
  { unfold serve. cbn [regenerates route fst]. unfold logout.
    cbn [sessionID passport_session fst].
    apply unbound_req_logout. left. reflexivity. }
  assert (Hagain :
            serve stream env' (fst (serve stream env st (PostLogout (Some s))))
              (PostLogout (Some s))
            = (withSessions (fst (serve stream env st (PostLogout (Some s))))
                 (store_set (genid env') (emptySession env')
                    (store_destroy s
                       (sessionStore
                          (fst (serve stream env st
                                  (PostLogout (Some s))))))),
               Respond loggedOut)).
  { apply logout_unresolved, unbound_resolve, Hun. }
  split; [reflexivity|].
  split; [apply unbound_resolve, Hun|].
  split; [apply unbound_resolve, unbound_run; assumption|].
  split; [exact Hagain|].
  split.
  { rewrite Hagain. cbn [fst]. apply unbound_resolve.
    intros r. cbn [sessionStore withSessions]. rewrite store_get_set.
    destruct (String.eqb s (genid env')).
    - intros H. inversion H. reflexivity.
    - rewrite store_get_destroy, String.eqb_refl. discriminate. }
  split; [rewrite Hagain; repeat split|].
  intros Hno.
  pose proof (@logout_unresolved stream env st s
                (unbound_resolve (now env) (noSession_unbound Hno)))
    as Hfirst.
  rewrite (store_destroy_absent _ _ Hno) in Hfirst.
  split; [exact Hfirst | apply unbound_resolve, Hun].
Qed.

Lemma logout_destroys_session_witness :
  resolveSession 3000 Sample.st2 (Some "sid-1") <> None
  /\ resolveSession 4000
       (run Sample.stream
          (fst (serve Sample.stream Sample.env3 Sample.st2
                  (PostLogout (Some "sid-1"))))
          [(Sample.env3, PostLogin None (mkLogin "alice" "correct-pw"))])
       (Some "sid-1") = None.
Proof.
  split; [vm_compute; discriminate|].
  refine (proj1 (proj2 (proj2
            (@logout_destroys_session Sample.stream Sample.env3 Sample.env3
               Sample.st2 "sid-1"
               [(Sample.env3, PostLogin None (mkLogin "alice" "correct-pw"))]
               4000 _)))).
  constructor; [cbn; discriminate | constructor].
Defined.


(** * Further properties of the authentication module *)

(** ** The digest [hashPassword] returns *)

Lemma isHex_app (s t : string) :
  Hex.isHex (s ++ t) = Hex.isHex s && Hex.isHex t.
Proof.
  induction s as [|c s IH]; cbn [append Hex.isHex].
  - reflexivity.
  - rewrite IH. apply andb_assoc.
Qed.

Lemma isHex_ofByte (b : byte) : Hex.isHex (Hex.ofByte b) = true.
Proof. destruct b; reflexivity. Qed.

Lemma isHex_encode (bs : list byte) : Hex.isHex (Hex.encode bs) = true.
Proof.
  induction bs as [|b bs IH]; cbn [Hex.encode].
  - reflexivity.
  - rewrite isHex_app, isHex_ofByte, IH. reflexivity.
Qed.

Lemma string_length_app (s t : string) :
  String.length (s ++ t) = String.length s + String.length t.
Proof.
  induction s as [|c s IH]; cbn [append String.length].
  - reflexivity.
  - rewrite IH. reflexivity.
Qed.

Lemma length_encode (bs : list byte) :
  String.length (Hex.encode bs) = 2 * List.length bs.
Proof.
  induction bs as [|b bs IH]; cbn [Hex.encode List.length].
  - reflexivity.
  - rewrite string_length_app, IH. cbn [Hex.ofByte String.length]. lia.
Qed.

(** X1: whatever the password and the random bytes, [hashPassword] returns
    a well-formed digest of 161 characters: 128 hexadecimal digits, a
    ['.'], and the 32 hexadecimal digits of the salt. *)
Theorem hashPassword_wellFormed stream (e : Entropy) (p : string) :
  wellFormedDigest (hashPassword stream e p) = true
  /\ String.length (hashPassword stream e p) = 161
  /\ exists hashed salt,
       hashPassword stream e p = hashed ++ "." ++ salt
       /\ String.length hashed = 128 /\ String.length salt = 32
       /\ Hex.isHex hashed = true /\ Hex.isHex salt = true.
Proof.
  assert (Hh : String.length
                 (Hex.encode (scrypt stream p
                                (Hex.encode (randomBytes 16 e)) 64)) = 128).
  { rewrite length_encode, scrypt_length. reflexivity. }
  assert (Hs : String.length (Hex.encode (randomBytes 16 e)) = 32).
  { rewrite length_encode, randomBytes_length. reflexivity. }
  repeat apply conj.
  - unfold wellFormedDigest. rewrite split_hashPassword.
    rewrite !isHex_encode, Hh. reflexivity.
  - unfold hashPassword. rewrite !string_length_app, Hh, Hs. reflexivity.
  - exists (Hex.encode (scrypt stream p (Hex.encode (randomBytes 16 e)) 64)),
           (Hex.encode (randomBytes 16 e)).
    repeat apply conj; try assumption; try apply isHex_encode. reflexivity.
Qed.

(** ** Verification against a fresh digest *)

Lemma buffer_eqb_eq (a b : Buffer) : buffer_eqb a b = true <-> a = b.
Proof.
  split.
  - revert b. induction a as [|x a IH]; intros [|y b] H; cbn in H;
      try discriminate; try reflexivity.
    apply andb_true_iff in H. destruct H as [Hxy Hab].
    apply Byte.byte_dec_bl in Hxy. rewrite Hxy, (IH b Hab). reflexivity.
  - intros ->. apply buffer_eqb_refl.
Qed.

(** X2: against a digest made of [p], any password [p'] is compared without
    exception, and it is accepted exactly when scrypt derives the same key
    from [p'] and the digest's salt as it did from [p]. *)
Theorem comparePasswords_fresh_digest stream (e : Entropy) (p p' : string) :
  comparePasswords stream p' (hashPassword stream e p)
  = Ok (buffer_eqb
          (scrypt stream p (Hex.encode (randomBytes 16 e)) 64)
          (scrypt stream p' (Hex.encode (randomBytes 16 e)) 64))
  /\ (comparePasswords stream p' (hashPassword stream e p) = Ok true
      <-> scrypt stream p' (Hex.encode (randomBytes 16 e)) 64
          = scrypt stream p (Hex.encode (randomBytes 16 e)) 64).
Proof.
  assert (H : comparePasswords stream p' (hashPassword stream e p)
              = Ok (buffer_eqb
                      (scrypt stream p (Hex.encode (randomBytes 16 e)) 64)
                      (scrypt stream p' (Hex.encode (randomBytes 16 e)) 64))).
  { unfold comparePasswords. rewrite split_hashPassword.
    cbn [nth_error Buffer_from_hex scryptAsync bind].
    rewrite decode_encode. unfold timingSafeEqual.
    rewrite !scrypt_length, Nat.eqb_refl. reflexivity. }
  split; [exact H|]. rewrite H. split.
  - intros Hok. symmetry. apply buffer_eqb_eq. congruence.
  - intros Heq. rewrite Heq, buffer_eqb_refl. reflexivity.
Qed.

(** ** Components after the salt *)

Lemma split_nonempty (c : ascii) (s : string) : split c s <> [].
Proof.
  destruct s as [|d s]; cbn [split]; [discriminate|].
  destruct (Ascii.eqb d c); [discriminate|].
  destruct (split c s); discriminate.
Qed.

Lemma split_app_sep (c : ascii) (s t : string) :
  split c (s ++ String c t) = (split c s ++ split c t)%list.
Proof.
  induction s as [|d s IH]; cbn [append split].
  - rewrite Ascii.eqb_refl. reflexivity.
  - destruct (Ascii.eqb d c).
    + rewrite IH. reflexivity.
    + rewrite IH. pose proof (split_nonempty c s) as Hne.
      destruct (split c s) as [|part parts]; [contradiction|]. reflexivity.
Qed.

Lemma split_two (c : ascii) (s : string) :
  occurs c s = true -> 2 <= List.length (split c s).
Proof.
  induction s as [|d s IH]; cbn [occurs split]; [discriminate|].
  destruct (Ascii.eqb d c); cbn [orb].
  - intros _. pose proof (split_nonempty c s) as Hne.
    destruct (split c s); [contradiction|]. cbn. lia.
  - intros H. specialize (IH H).
    destruct (split c s) as [|part parts]; cbn in *; lia.
Qed.

(** X3: [comparePasswords] reads the first two ['.']-separated components
    of the stored value only: on a value that has a ['.'], whatever is
    appended after a further ['.'] does not change the result. *)
Theorem comparePasswords_trailing_components stream (p d extra : string) :
  occurs "." d = true ->
  comparePasswords stream p (d ++ "." ++ extra) = comparePasswords stream p d.
Proof.
  intros Hdot. unfold comparePasswords.
  change ("." ++ extra) with (String "." extra).
  rewrite split_app_sep.
  pose proof (split_two _ _ Hdot) as Hlen.
  rewrite !nth_error_app1 by lia. reflexivity.
Qed.

Lemma comparePasswords_trailing_components_witness :
  occurs "." (hashPassword Sample.stream Sample.zeros "correct-pw") = true
  /\ comparePasswords Sample.stream "correct-pw"
       (hashPassword Sample.stream Sample.zeros "correct-pw" ++ "." ++ "junk")
     = Ok true.
Proof.
  split; [vm_compute; reflexivity|].
  rewrite (@comparePasswords_trailing_components Sample.stream "correct-pw"
             (hashPassword Sample.stream Sample.zeros "correct-pw") "junk").
  - vm_compute. reflexivity.
  - vm_compute. reflexivity.
Defined.

(** * Further properties of the in-memory store *)

Section MapInvariants.

Variable V : Type.

Lemma keys_map_set (k : nat) (v : V) (m : JsMap V) (j : nat) :
  In j (keys (map_set k v m)) <-> j = k \/ In j (keys m).
Proof.
  induction m as [|[k' v'] m IH]; cbn [map_set keys map fst In].
  - intuition.
  - destruct (Nat.eqb_spec k k') as [->|Hne]; cbn [keys map fst In].
    + intuition.
    + fold (keys (map_set k v m)). fold (keys m). rewrite IH. intuition.
Qed.

Lemma NoDup_keys_map_set (k : nat) (v : V) (m : JsMap V) :
  NoDup (keys m) -> NoDup (keys (map_set k v m)).
Proof.
  induction m as [|[k' v'] m IH]; cbn [map_set keys map fst]; intros Hnd.
  - constructor; [intros [] | constructor].
  - inversion Hnd as [|x l Hnotin Hrest]; subst.
    destruct (Nat.eqb_spec k k') as [->|Hne]; cbn [keys map fst].
    + constructor; assumption.
    + constructor.
      * fold (keys (map_set k v m)). rewrite keys_map_set.
        intros [Heq|Hin]; [congruence | contradiction].
      * apply IH. exact Hrest.
Qed.

Lemma map_set_fresh (k : nat) (v : V) (m : JsMap V) :
  ~ In k (keys m) -> map_set k v m = (m ++ [(k, v)])%list.
Proof.
  induction m as [|[k' v'] m IH]; cbn [map_set keys map fst In app];
    intros Hnot.
  - reflexivity.
  - destruct (Nat.eqb_spec k k') as [->|Hne].
    + exfalso. apply Hnot. left. reflexivity.
    + rewrite IH; [reflexivity|]. intros Hin. apply Hnot. right. exact Hin.
Qed.

Lemma map_get_keys (k : nat) (m : JsMap V) :
  In k (keys m) <-> exists v, map_get k m = Some v.
Proof.
  induction m as [|[k' v'] m IH]; cbn [map_get keys map fst In].
  - split; [intros [] | intros [v H]; discriminate].
  - destruct (Nat.eqb_spec k k') as [->|Hne].
    + split; [intros _; exists v'; reflexivity | intros _; left; reflexivity].
    + fold (keys m). rewrite <- IH. split.
      * intros [Heq|Hin]; [congruence | exact Hin].
      * intros Hin. right. exact Hin.
Qed.

Lemma map_get_In (k : nat) (v : V) (m : JsMap V) :
  NoDup (keys m) -> In (k, v) m -> map_get k m = Some v.
Proof.
  induction m as [|[k' v'] m IH]; cbn [map_get keys map fst In];
    intros Hnd Hin; [contradiction|].
  inversion Hnd as [|x l Hnotin Hrest]; subst.
  destruct Hin as [Heq|Hin].
  - inversion Heq; subst. rewrite Nat.eqb_refl. reflexivity.
  - destruct (Nat.eqb_spec k k') as [->|Hne].
    + exfalso. apply Hnotin. apply (in_map fst) in Hin. exact Hin.
    + apply IH; assumption.
Qed.

Lemma values_map_set (k : nat) (v : V) (m : JsMap V) (x : V) :
  In x (map_values (map_set k v m)) -> x = v \/ In x (map_values m).
Proof.
  induction m as [|[k' v'] m IH]; cbn [map_set map_values map snd In].
  - intuition.
  - destruct (Nat.eqb k k'); cbn [map_values map snd In].
    + intuition.
    + fold (map_values (map_set k v m)). fold (map_values m).
      intros [Heq|Hin]; [intuition | destruct (IH Hin); intuition].
Qed.

Lemma tidy_create (n : nat) (v : V) (m : JsMap V) :
  tidy n m -> tidy (S n) (map_set n v m).
Proof.
  intros [Hnd Hlt]. split.
  - apply NoDup_keys_map_set, Hnd.
  - intros k Hin. apply keys_map_set in Hin.
    destruct Hin as [->|Hin]; [lia | specialize (Hlt k Hin); lia].
Qed.

Lemma tidy_update (n k : nat) (v : V) (m : JsMap V) :
  tidy n m -> In k (keys m) -> tidy n (map_set k v m).
Proof.
  intros [Hnd Hlt] Hk. split.
  - apply NoDup_keys_map_set, Hnd.
  - intros j Hin. apply keys_map_set in Hin.
    destruct Hin as [->|Hin]; apply Hlt; assumption.
Qed.

Lemma tidy_fresh (n : nat) (m : JsMap V) : tidy n m -> ~ In n (keys m).
Proof. intros [_ Hlt] Hin. specialize (Hlt n Hin). lia. Qed.

End MapInvariants.

Lemma consistent_new : consistent newMemStorage.
Proof.
  unfold consistent, tidy. cbn.
  repeat apply conj; try apply NoDup_nil; intros k H; contradiction H.
Qed.

Lemma consistent_same_data (st st' : MemStorage) :
  sameData st st' -> consistent st -> consistent st'.
Proof.
  unfold sameData, consistent.
  intros [-> [-> [-> [-> [-> ->]]]]]. exact (fun H => H).
Qed.

Lemma consistent_createUser (t : N) (st : MemStorage) (u : InsertUser.t) :
  consistent st -> consistent (fst (createUser t st u)).
Proof.
  intros [Hu [Hs Ha]]. unfold consistent. split; [|split].
  - cbn. apply tidy_create, Hu.
  - exact Hs.
  - exact Ha.
Qed.

Lemma consistent_updateUserWith (st : MemStorage) (id : nat)
    (b : PatchBody) :
  consistent st -> consistent (fst (updateUserWith st id b)).
Proof.
  intros [Hu [Hs Ha]]. unfold consistent. split; [|split].
  - unfold updateUserWith.
    destruct (map_get id (users st)) as [u|] eqn:E; [|exact Hu].
    cbn. apply tidy_update; [exact Hu|]. apply map_get_keys. eauto.
  - unfold updateUserWith. destruct (map_get id (users st)); exact Hs.
  - unfold updateUserWith. destruct (map_get id (users st)); exact Ha.
Qed.

Lemma consistent_updateUser (st : MemStorage) (id : nat)
    (patch : PartialUser.t) :
  consistent st -> consistent (fst (updateUser st id patch)).
Proof. apply consistent_updateUserWith. Qed.

Lemma consistent_createStudent (st : MemStorage) (s : InsertStudent.t) :
  consistent st -> consistent (fst (createStudent st s)).
Proof.
  intros [Hu [Hs Ha]]. unfold consistent. split; [|split].
  - exact Hu.
  - cbn. apply tidy_create, Hs.
  - exact Ha.
Qed.

Lemma consistent_createActivity (t : N) (st : MemStorage)
    (a : InsertActivity.t) :
  consistent st -> consistent (fst (createActivity t st a)).
Proof.
  intros [Hu [Hs Ha]]. unfold consistent. split; [|split].
  - exact Hu.
  - exact Hs.
  - cbn. apply tidy_create, Ha.
Qed.

Lemma consistent_withSessions (st : MemStorage) (s : SessionStore) :
  consistent st -> consistent (withSessions st s).
Proof. intros H. exact H. Qed.

Lemma consistent_req_login (env : Env) (st : MemStorage) (c : option string)
    (p : Express_User) :
  consistent st -> consistent (req_login env st c p).
Proof. intros H. exact H. Qed.

Lemma consistent_req_logout (env : Env) (st : MemStorage)
    (c : option string) :
  consistent st -> consistent (req_logout env st c).
Proof. intros H. exact H. Qed.

Lemma consistent_route stream (env : Env) (st : MemStorage) (call : ApiCall) :
  consistent st -> consistent (fst (route stream env st call)).
Proof.
  intros Hc. destruct call as [c b|c b|c|c|c b|c id b]; cbn [route].
  - unfold register, registerCommit. cbn [body passport_session sessionID].
    destruct (getUserByUsername st _); [exact Hc|].
    match goal with
    | |- context [createUser ?t ?s ?u] =>
        pose proof (consistent_createUser t u Hc) as H1;
        destruct (createUser t s u) as [st1 created]
    end.
    cbn [fst] in H1. destruct (isStudent created).
    + match goal with
      | |- context [createStudent ?s ?x] =>
          pose proof (consistent_createStudent x H1) as H2;
          destruct (createStudent s x) as [st2 student]
      end.
      cbn [fst] in H2.
      match goal with
      | |- context [createActivity ?t ?s ?a] =>
          pose proof (consistent_createActivity t a H2) as H3;
          destruct (createActivity t s a) as [st3 act]
      end.
      cbn [fst] in *. apply consistent_req_login, H3.
    + match goal with
      | |- context [createActivity ?t ?s ?a] =>
          pose proof (consistent_createActivity t a H1) as H3;
          destruct (createActivity t s a) as [st3 act]
      end.
      cbn [fst] in *. apply consistent_req_login, H3.
  - unfold login. destruct (authenticate_local stream st _) as [[u|]|e];
      try exact Hc.
    match goal with
    | |- context [createActivity ?t ?s ?a] =>
        pose proof (@consistent_createActivity t s a) as H3;
        destruct (createActivity t s a) as [st3 act]
    end.
    cbn [fst] in *. apply H3, consistent_req_login, Hc.
  - unfold logout. cbn [user sessionID passport_session fst].
    apply consistent_req_logout.
    destruct (resolveSession _ _ _); [|exact Hc].
    apply consistent_createActivity, Hc.
  - unfold getCurrentUser. destruct (user _); exact Hc.
  - unfold postUsers. cbn [behind].
    destruct (isAuthenticated _); [|exact Hc].
    destruct (hasRole _ _); [|exact Hc].
    destruct (validateBody _ _); [|exact Hc].
    match goal with
    | |- context [createUser ?t ?s ?u] =>
        pose proof (consistent_createUser t u Hc) as H1;
        destruct (createUser t s u) as [st1 created]
    end.
    cbn [fst] in H1.
    match goal with
    | |- context [createActivity ?t ?s ?a] =>
        pose proof (consistent_createActivity t a H1) as H3;
        destruct (createActivity t s a) as [st3 act]
    end.
    exact H3.
  - unfold patchUser. cbn [behind].
    destruct (isAuthenticated _); [|exact Hc].
    destruct (hasRole _ _); [|exact Hc].
    match goal with
    | |- context [updateUserWith ?s ?i ?p] =>
        pose proof (consistent_updateUserWith i p Hc) as H1;
        destruct (updateUserWith s i p) as [st1 [u|]]
    end; [|exact H1].
    cbn [fst] in H1.
    match goal with
    | |- context [createActivity ?t ?s ?a] =>
        pose proof (consistent_createActivity t a H1) as H3;
        destruct (createActivity t s a) as [st3 act]
    end.
    exact H3.
Qed.

Lemma consistent_serve stream (env : Env) (st : MemStorage) (call : ApiCall) :
  consistent st -> consistent (fst (serve stream env st call)).
Proof.
  intros Hc.
  apply (@consistent_same_data (fst (route stream env st call)));
    [apply serve_data | apply consistent_route, Hc].
Qed.

Lemma consistent_run stream (calls : list (Env * ApiCall)) :
  forall st, consistent st -> consistent (run stream st calls).
Proof.
  induction calls as [|[env call] calls IH]; intros st Hc; cbn [run].
  - exact Hc.
  - apply IH, consistent_serve, Hc.
Qed.

Lemma keyed_run stream (calls : list (Env * ApiCall)) :
  forall st,
    keyed st ->
    Forall (fun ec => carriesNoId (snd ec)) calls ->
    keyed (run stream st calls).
Proof.
  induction calls as [|[env call] calls IH]; intros st Hk Hall; cbn [run].
  - exact Hk.
  - inversion Hall as [|x l Hhead Htail]; subst.
    apply IH; [|exact Htail].
    apply keyed_serve; [exact Hhead | exact Hk].
Qed.

(** X4: along every sequence of calls on a new store, no key is filed
    twice in the user, student and activity maps, and every key is below
    the counter the next key comes from (no id is ever reused). Every user
    is filed under its own id as long as no [PATCH /api/users/:id] had the
    key [id] in its body; such a body changes the id of the stored record
    and leaves it filed under the old key. *)
Theorem reachable_consistent stream (calls : list (Env * ApiCall)) :
  consistent (run stream newMemStorage calls)
  /\ (Forall (fun ec => carriesNoId (snd ec)) calls ->
      keyed (run stream newMemStorage calls))
  /\ option_map User.id
       (getUser
          (run Sample.stream Sample.st2
             [(Sample.env3, PatchUser (Some "sid-2") 1 Demo.renumber)])
          1)
     = Some 42.
Proof.
  split; [apply consistent_run, consistent_new|].
  split; [apply keyed_run, keyed_new|].
  vm_compute. reflexivity.
Qed.

Lemma reachable_consistent_witness :
  Forall (fun ec => carriesNoId (snd ec))
    [(Sample.env1, PostRegister None Sample.aliceBody);
     (Sample.env2, PostRegister None Sample.rootBody);
     (Sample.env3, PatchUser (Some "sid-2") 1 Demo.toStudent)]
  /\ keyed
       (run Sample.stream newMemStorage
          [(Sample.env1, PostRegister None Sample.aliceBody);
           (Sample.env2, PostRegister None Sample.rootBody);
           (Sample.env3, PatchUser (Some "sid-2") 1 Demo.toStudent)]).
Proof.
  assert (H : Forall (fun ec => carriesNoId (snd ec))
                [(Sample.env1, PostRegister None Sample.aliceBody);
                 (Sample.env2, PostRegister None Sample.rootBody);
                 (Sample.env3, PatchUser (Some "sid-2") 1 Demo.toStudent)]).
  { repeat constructor. }
  split; [exact H|].
  exact (proj1 (proj2 (reachable_consistent Sample.stream _)) H).
Defined.

(** * Further properties of the routes *)

(** ** Guards *)

(** X5: [hasRole] makes the same check as [isAuthenticated] before it looks
    at the role, so a route behind both behaves as it would behind
    [hasRole] alone. *)
Theorem hasRole_subsumes_isAuthenticated (B : Type) (roles : list string)
    (rest : list (Request B -> Middleware)) (req : Request B)
    (st : MemStorage) (route : MemStorage * Outcome) :
  behind (isAuthenticated :: hasRole roles :: rest) req st route
  = behind (hasRole roles :: rest) req st route.
Proof.
  cbn [behind]. unfold isAuthenticated, req_isAuthenticated, hasRole.
  destruct (user req); reflexivity.
Qed.

(** X6: the two user routes are for admins only. Without a resolved session
    they answer 401, with the session of a user whose role is not
    ["admin"] they answer 403. In both cases the route writes nothing:
    users, students and activities stay as they are, and the store differs
    only by the session of the cookie, written back as after every
    request. *)
Theorem user_routes_admin_only stream (env : Env) (st : MemStorage)
    (c : option string) (call : ApiCall) :
  (exists b, call = PostUsers c b) \/ (exists id b, call = PatchUser c id b) ->
  (resolveSession (now env) st c = None ->
   serve stream env st call = (touch env st c st, Respond notAuthenticated))
  /\ (forall u, resolveSession (now env) st c = Some u ->
        User.role (user_record u) <> "admin" ->
        serve stream env st call = (touch env st c st, Respond forbidden))
  /\ (resolveSession (now env) st c = None
      \/ (exists u, resolveSession (now env) st c = Some u
                    /\ User.role (user_record u) <> "admin") ->
      sameData st (fst (serve stream env st call))).
Proof.
  intros Hcall.
  assert (Hrole : forall r, r <> "admin" -> includes ["admin"] r = false).
  { intros r Hr. apply includes_not_In. intros [Heq|[]]. congruence. }
  assert (Hcookie : cookieOf call = c).
  { destruct Hcall as [[b ->]|[id [b ->]]]; reflexivity. }
  assert (H401 : resolveSession (now env) st c = None ->
                 route stream env st call = (st, Respond notAuthenticated)).
  { destruct Hcall as [[b ->]|[id [b ->]]]; cbn [route];
      unfold postUsers, patchUser; cbn [behind];
      unfold isAuthenticated, req_isAuthenticated, hasRole, passport_session;
      cbn [user]; intros ->; reflexivity. }
  assert (H403 : forall u, resolveSession (now env) st c = Some u ->
                   User.role (user_record u) <> "admin" ->
                   route stream env st call = (st, Respond forbidden)).
  { destruct Hcall as [[b ->]|[id [b ->]]]; cbn [route];
      unfold postUsers, patchUser; cbn [behind];
      unfold isAuthenticated, req_isAuthenticated, hasRole, passport_session;
      cbn [user]; intros u -> Hr; rewrite (Hrole _ Hr); reflexivity. }
  assert (Hregen : forall r, regenerates call (Respond r) = false).
  { destruct Hcall as [[b ->]|[id [b ->]]]; reflexivity. }
  clear Hcall. subst c.
  split; [|split].
  - intros Hres. apply serve_refused; [apply H401, Hres | apply Hregen].
  - intros u Hres Hr.
    apply serve_refused; [apply (H403 u Hres Hr) | apply Hregen].
  - intros [Hres|[u [Hres Hr]]].
    + rewrite (@serve_refused _ _ _ _ _ (H401 Hres) (Hregen _)).
      apply touch_data.
    + rewrite (@serve_refused _ _ _ _ _ (H403 u Hres Hr) (Hregen _)).
      apply touch_data.
Qed.

Lemma user_routes_admin_only_witness :
  option_map (fun u => User.role (user_record u))
    (resolveSession 3000 Sample.st2 (Some "sid-1")) = Some "teacher"
  /\ serve Sample.stream Sample.env3 Sample.st2
       (PostUsers (Some "sid-1") Sample.bob)
     = (touch Sample.env3 Sample.st2 (Some "sid-1") Sample.st2,
        Respond forbidden).
Proof.
  split; [vm_compute; reflexivity|].
  refine (proj1 (proj2 (@user_routes_admin_only Sample.stream Sample.env3
                          Sample.st2 (Some "sid-1")
                          (PostUsers (Some "sid-1") Sample.bob) _))
            Sample.alice _ _).
  - left. exists Sample.bob. reflexivity.
  - vm_compute. reflexivity.
  - vm_compute. discriminate.
Defined.

(** ** Requests that are refused *)




(** ** Login *)

(** X8: the login route answers 200 only to credentials that are both
    present, name a user on file, and whose password [comparePasswords]
    accepted against that user's stored value; the session it opens under
    the generated id holds that user's id and lasts [maxAge]. *)
Theorem login_sound stream (env : Env) (st : MemStorage) (c : option string)
    (credentials : LoginData) :
  statusOf (snd (serve stream env st (PostLogin c credentials))) = Some 200 ->
  login_username credentials <> "" /\ login_password credentials <> ""
  /\ exists u,
       getUserByUsername st (login_username credentials) = Some u
       /\ comparePasswords stream (login_password credentials)
            (User.password u) = Ok true
       /\ store_get (genid env)
            (sessionStore (fst (serve stream env st (PostLogin c credentials))))
          = Some {| passport_user := Some (User.id u);
                    expires := (now env + maxAge)%N |}.
Proof.
  rewrite serve_answer. cbn [route]. intros H200.
  assert (Hauth : exists p,
             authenticate_local stream st credentials = Ok (Some p)).
  { unfold login in H200. cbn [body passport_session] in H200.
    destruct (authenticate_local stream st credentials) as [[p|]|e];
      [eexists; reflexivity | discriminate | discriminate]. }
  destruct Hauth as [p Hauth].
  rewrite (@serve_login_accepted stream env st c credentials p Hauth).
  clear Hauth. revert H200.
  unfold login. cbn [body passport_session sessionID].
  unfold authenticate_local, localStrategy.
  destruct (String.eqb_spec (login_username credentials) "") as [|Hu];
    [discriminate|].
  destruct (String.eqb_spec (login_password credentials) "") as [|Hp];
    [discriminate|].
  cbn [orb].
  destruct (getUserByUsername st (login_username credentials)) as [u|];
    [|discriminate].
  destruct (comparePasswords stream (login_password credentials)
              (User.password u)) as [[|]|e] eqn:Hcmp; cbn [bind negb];
    try discriminate.
  intros _. repeat apply conj; try assumption.
  exists u. repeat apply conj.
  - reflexivity.
  - exact Hcmp.
  - cbn [fst createActivity req_login withSessions sessionStore].
    rewrite store_get_set, String.eqb_refl. reflexivity.
Qed.

Lemma login_sound_witness :
  statusOf (snd (serve Sample.stream Sample.env3 Sample.st2
                   (PostLogin None (mkLogin "alice" "correct-pw"))))
  = Some 200
  /\ exists u,
       getUserByUsername Sample.st2 "alice" = Some u
       /\ comparePasswords Sample.stream "correct-pw" (User.password u)
          = Ok true
       /\ store_get "sid-3"
            (sessionStore
               (fst (serve Sample.stream Sample.env3 Sample.st2
                       (PostLogin None (mkLogin "alice" "correct-pw")))))
          = Some {| passport_user := Some (User.id u);
                    expires := (3000 + maxAge)%N |}.
Proof.
  split; [vm_compute; reflexivity|].
  apply (@login_sound Sample.stream Sample.env3 Sample.st2 None
           (mkLogin "alice" "correct-pw")).
  vm_compute. reflexivity.
Defined.

(** ** Registration, then login, then the current user *)

Lemma find_values_map_set (V : Type) (pred : V -> bool) (k : nat) (v : V)
    (m : JsMap V) :
  find pred (map_values m) = None -> pred v = true ->
  find pred (map_values (map_set k v m)) = Some v.
Proof.
  intros Hnone Hv. induction m as [|[k' v'] m IH];
    cbn [map_set map_values map snd find] in *.
  - rewrite Hv. reflexivity.
  - destruct (pred v') eqn:Ev'; [discriminate|].
    destruct (Nat.eqb k k'); cbn [map_values map snd find].
    + rewrite Hv. reflexivity.
    + rewrite Ev'. apply IH, Hnone.
Qed.

Lemma now_within_maxAge (t : N) : N.leb t (t + maxAge) = true.
Proof. apply N.leb_le. lia. Qed.

(** Resolves, at the time of the registration, the session that the
    registration opened for the user it filed. *)
Ltac resolve_session_of_new_user :=
  unfold resolveSession, loadSession;
  cbn [sessionStore req_login withSessions];
  rewrite store_get_set, String.eqb_refl; cbn [expires];
  rewrite now_within_maxAge; unfold deserializeUser, getUser;
  cbn [users User.id serializeUser user_record passport_user
       req_login withSessions];
  rewrite map_get_set_same.

Lemma register_lookup stream (env : Env) (st : MemStorage)
    (c : option string) (b : RegisterBody) :
  getUserByUsername st (InsertUser.username (reg_user b)) = None ->
  getUserByUsername (fst (serve stream env st (PostRegister c b)))
    (InsertUser.username (reg_user b))
  = Some (snd (createUser (now env) st
                 (withPassword (reg_user b)
                    (hashPassword stream (entropy env)
                       (InsertUser.password (reg_user b)))))).
Proof.
  intros Hnew.
  rewrite (@serve_register_new stream env st c b Hnew).
  unfold register, registerCommit. cbn [body passport_session sessionID].
  rewrite Hnew. cbn [createUser snd].
  destruct (isStudent _); cbn [createStudent createActivity fst snd];
    unfold getUserByUsername; cbn [users req_login withSessions];
    (apply find_values_map_set; [exact Hnew|]);
    cbn [User.username withPassword InsertUser.username];
    apply String.eqb_refl.
Qed.



(** X10: a registration with the role ["student"] also files a student
    profile for the new user: active, enrolled now, with the grade of the
    body or ["Not assigned"], and the number ["ST"] followed by the draw.
    The session opened by the registration resolves with this profile
    attached. A registration with another role files no student. *)
Theorem register_student_profile stream (env : Env) (st : MemStorage)
    (c : option string) (b : RegisterBody) :
  getUserByUsername st (InsertUser.username (reg_user b)) = None ->
  (InsertUser.role (reg_user b) = "student" ->
   getStudentByUserId st (currentUserId st) = None ->
   exists student,
     getStudentByUserId (fst (serve stream env st (PostRegister c b)))
       (currentUserId st) = Some student
     /\ Student.userId student = currentUserId st
     /\ Student.status student = "active"
     /\ Student.dateEnrolled student = now env
     /\ Student.grade student = orDefault (reg_grade b) "Not assigned"
     /\ Student.studentId student
        = "ST" ++ decimal (10000 + random90000 env)
     /\ option_map studentInfo
          (resolveSession (now env)
             (fst (serve stream env st (PostRegister c b)))
             (Some (genid env)))
        = Some (Some student))
  /\ (InsertUser.role (reg_user b) <> "student" ->
      students (fst (serve stream env st (PostRegister c b))) = students st
      /\ option_map studentInfo
           (resolveSession (now env)
              (fst (serve stream env st (PostRegister c b)))
              (Some (genid env)))
         = Some None).
Proof.
  intros Hnew.
  rewrite (@serve_register_new stream env st c b Hnew).
  unfold register, registerCommit. cbn [body passport_session sessionID].
  rewrite Hnew. cbn [createUser snd]. unfold isStudent at 1 2 3 4.
  cbn [User.role withPassword InsertUser.role]. split.
  - intros Hrole Hfree. rewrite Hrole. cbn [String.eqb Ascii.eqb Bool.eqb].
    cbn [createStudent createActivity fst snd].
    assert (Hfind :
              forall s : Student.t,
                Student.userId s = currentUserId st ->
                find (fun student =>
                        Nat.eqb (Student.userId student) (currentUserId st))
                     (map_values
                        (map_set (currentStudentId st) s (students st)))
                = Some s).
    { intros s Hs. apply find_values_map_set; [exact Hfree|].
      rewrite Hs. apply Nat.eqb_refl. }
    eexists. repeat apply conj.
    + unfold getStudentByUserId. cbn [students req_login withSessions].
      apply Hfind. reflexivity.
    + reflexivity.
    + reflexivity.
    + reflexivity.
    + reflexivity.
    + reflexivity.
    + resolve_session_of_new_user. cbn [option_map studentInfo].
      unfold isStudent. cbn [User.role withPassword InsertUser.role].
      cbn [String.eqb Ascii.eqb Bool.eqb].
      unfold getStudentByUserId. cbn [students req_login withSessions].
      rewrite Hfind; reflexivity.
  - intros Hrole. apply String.eqb_neq in Hrole. rewrite Hrole.
    cbn [createActivity fst snd]. split; [reflexivity|].
    resolve_session_of_new_user. cbn [option_map studentInfo].
    unfold isStudent. cbn [User.role withPassword InsertUser.role].
    try rewrite Hrole. reflexivity.
Qed.

Lemma register_student_profile_witness :
  getUserByUsername Sample.st2 "carol" = None
  /\ option_map Student.studentId (getStudentByUserId Demo.st4 3)
     = Some "ST14321".
Proof.
  split; [reflexivity|].
  destruct (proj1 (@register_student_profile Sample.stream Demo.env4
                     Sample.st2 None Demo.carolBody eq_refl)
              eq_refl eq_refl)
    as [student [Hget [_ [_ [_ [_ [Hid _]]]]]]].
  change (getStudentByUserId Demo.st4 3)
    with (getStudentByUserId
            (fst (serve Sample.stream Demo.env4 Sample.st2
                    (PostRegister None Demo.carolBody)))
            (currentUserId Sample.st2)).
  rewrite Hget. cbn [option_map]. rewrite Hid. reflexivity.
Defined.

(** X11: after a registration under a new username, a login with the same
    username and password (both non-empty) is accepted: the local strategy
    finds the user just filed and the password verifies against the digest
    on file. *)
Theorem register_then_login stream (env env' : Env) (st : MemStorage)
    (c c' : option string) (b : RegisterBody) :
  getUserByUsername st (InsertUser.username (reg_user b)) = None ->
  InsertUser.username (reg_user b) <> "" ->
  InsertUser.password (reg_user b) <> "" ->
  exists u,
    authenticate_local stream
      (fst (serve stream env st (PostRegister c b)))
      (mkLogin (InsertUser.username (reg_user b))
               (InsertUser.password (reg_user b)))
    = Ok (Some u)
    /\ User.id (user_record u) = currentUserId st
    /\ User.username (user_record u) = InsertUser.username (reg_user b)
    /\ snd (serve stream env' (fst (serve stream env st (PostRegister c b)))
              (PostLogin c'
                 (mkLogin (InsertUser.username (reg_user b))
                          (InsertUser.password (reg_user b)))))
       = Respond {| status := 200;
                    payload := JUser (omitPassword (user_record u))
                                     (studentInfo u) |}.
Proof.
  intros Hnew Hu Hp.
  pose proof (@register_lookup stream env st c b Hnew) as Hfound.
  assert (Hauth :
            exists u,
              authenticate_local stream
                (fst (serve stream env st (PostRegister c b)))
                (mkLogin (InsertUser.username (reg_user b))
                         (InsertUser.password (reg_user b)))
              = Ok (Some u)
              /\ User.id (user_record u) = currentUserId st
              /\ User.username (user_record u)
                 = InsertUser.username (reg_user b)).
  { unfold authenticate_local, localStrategy.
    cbn [login_username login_password].
    apply String.eqb_neq in Hu. apply String.eqb_neq in Hp.
    rewrite Hu, Hp. cbn [orb]. rewrite Hfound.
    cbn [createUser snd User.password withPassword InsertUser.password].
    assert (Hcmp : comparePasswords stream (InsertUser.password (reg_user b))
                     (hashPassword stream (entropy env)
                        (InsertUser.password (reg_user b))) = Ok true)
      by verify_fresh_digest.
    rewrite Hcmp. cbn [bind negb]. eexists. repeat apply conj; reflexivity. }
  destruct Hauth as [u [Hauth [Hid Hname]]].
  exists u. repeat apply conj; try assumption.
  remember (fst (serve stream env st (PostRegister c b))) as st1.
  rewrite serve_answer. cbn [route]. unfold login.
  cbn [body passport_session]. rewrite Hauth. reflexivity.
Qed.

Lemma register_then_login_witness :
  getUserByUsername newMemStorage "alice" = None
  /\ statusOf
       (snd (serve Sample.stream Sample.env3 Sample.st1
               (PostLogin None (mkLogin "alice" "correct-pw"))))
     = Some 200.
Proof.
  split; [reflexivity|].
  destruct (@register_then_login Sample.stream Sample.env1 Sample.env3
              newMemStorage None None Sample.aliceBody)
    as [u [_ [_ [_ H]]]].
  - reflexivity.
  - discriminate.
  - discriminate.
  - exact (f_equal statusOf H).
Defined.

(** In a consistent store, the user found under a username is filed under
    a key below the counter; under its own id when the users are filed
    under their ids. *)
Lemma getUserByUsername_filed (st : MemStorage) (name : string)
    (u : User.t) :
  consistent st -> getUserByUsername st name = Some u ->
  exists k, getUser st k = Some u /\ k < currentUserId st.
Proof.
  intros [[Hnd Hlt] _] Hfind. unfold getUserByUsername in Hfind.
  apply find_some in Hfind. destruct Hfind as [Hin _].
  unfold map_values in Hin. apply in_map_iff in Hin.
  destruct Hin as [[k v] [Hv Hin]]. cbn [snd] in Hv. subst v.
  pose proof (@map_get_In _ k u (users st) Hnd Hin) as Hget.
  exists k. split; [exact Hget|].
  apply Hlt, map_get_keys. exists u. exact Hget.
Qed.

Lemma getUserByUsername_getUser (st : MemStorage) (name : string)
    (u : User.t) :
  consistent st -> keyed st -> getUserByUsername st name = Some u ->
  getUser st (User.id u) = Some u.
Proof.
  intros Hc Hk Hfind.
  destruct (getUserByUsername_filed _ Hc Hfind) as [k [Hget _]].
  rewrite (Hk k u Hget). exact Hget.
Qed.

(** X12: after an accepted login (in a store whose users are filed under
    their ids), [GET /api/user] under the new session id, any time before
    the session expires, answers 200 with the same user (without password)
    and student profile as the login did. The request writes no user,
    student or activity; it renews the session: the record of the session
    is written back with the same user id and an expiry of [maxAge] from
    the time of the request, and the other sessions are left alone. *)
Theorem login_then_current_user stream (env env' : Env) (st : MemStorage)
    (c : option string) (credentials : LoginData) (u : Express_User) :
  consistent st ->
  keyed st ->
  authenticate_local stream st credentials = Ok (Some u) ->
  (now env' <= now env + maxAge)%N ->
  snd (serve stream env st (PostLogin c credentials))
  = Respond {| status := 200;
               payload := JUser (omitPassword (user_record u))
                                (studentInfo u) |}
  /\ snd (serve stream env'
            (fst (serve stream env st (PostLogin c credentials)))
            (GetUser (Some (genid env))))
     = Respond {| status := 200;
                  payload := JUser (omitPassword (user_record u))
                                   (studentInfo u) |}
  /\ sameData (fst (serve stream env st (PostLogin c credentials)))
       (fst (serve stream env'
               (fst (serve stream env st (PostLogin c credentials)))
               (GetUser (Some (genid env)))))
  /\ store_get (genid env)
       (sessionStore
          (fst (serve stream env'
                  (fst (serve stream env st (PostLogin c credentials)))
                  (GetUser (Some (genid env))))))
     = Some {| passport_user := Some (User.id (user_record u));
               expires := (now env' + maxAge)%N |}
  /\ (forall k, k <> genid env ->
        store_get k
          (sessionStore
             (fst (serve stream env'
                     (fst (serve stream env st (PostLogin c credentials)))
                     (GetUser (Some (genid env))))))
        = store_get k
            (sessionStore
               (fst (serve stream env st (PostLogin c credentials))))).
Proof.
  intros Hc Hk Hauth Ht.
  assert (Hshape :
            exists found,
              getUser st (User.id found) = Some found
              /\ u = {| user_record := found;
                        studentInfo :=
                          if isStudent found
                          then getStudentByUserId st (User.id found)
                          else None |}).
  { unfold authenticate_local, localStrategy in Hauth.
    destruct (_ || _); [discriminate|].
    destruct (getUserByUsername st (login_username credentials))
      as [found|] eqn:Efind; [|discriminate].
    destruct (comparePasswords stream _ _) as [[|]|e]; cbn [bind negb] in Hauth;
      try discriminate.
    inversion Hauth. exists found. split; [|reflexivity].
    apply (getUserByUsername_getUser _ Hc Hk Efind). }
  destruct Hshape as [found [Hget Hu]].
  rewrite (@serve_login_accepted stream env st c credentials u Hauth).
  unfold login. cbn [body passport_session sessionID].
  rewrite Hauth. cbn [createActivity fst snd].
  match goal with
  | |- context [serve stream env' ?s _] => set (st1 := s)
  end.
  assert (Hrecord : store_get (genid env) (sessionStore st1)
                    = Some {| passport_user := Some (serializeUser u);
                              expires := (now env + maxAge)%N |}).
  { subst st1. cbn [sessionStore req_login withSessions].
    rewrite store_get_set, String.eqb_refl. reflexivity. }
  assert (Hlive : N.leb (now env') (now env + maxAge) = true)
    by (apply N.leb_le, Ht).
  assert (Hres : resolveSession (now env') st1 (Some (genid env)) = Some u).
  { assert (Husers : users st1 = users st) by reflexivity.
    assert (Hstudents : students st1 = students st) by reflexivity.
    unfold resolveSession, loadSession. rewrite Hrecord.
    cbn [expires passport_user]. rewrite Hlive.
    unfold deserializeUser, getUser, getStudentByUserId.
    rewrite Husers, Hstudents. rewrite Hu at 1 2.
    unfold serializeUser. cbn [user_record passport_user].
    unfold getUser in Hget. rewrite Hget. reflexivity. }
  assert (Hserve :
            serve stream env' st1 (GetUser (Some (genid env)))
            = (touch env' st1 (Some (genid env)) st1,
               Respond {| status := 200;
                          payload := JUser (omitPassword (user_record u))
                                           (studentInfo u) |})).
  { apply (@serve_refused stream env' st1 (GetUser (Some (genid env))));
      [|reflexivity].
    cbn [route]. unfold getCurrentUser, passport_session. cbn [user].
    rewrite Hres. reflexivity. }
  rewrite Hserve. cbn [fst snd].
  split; [reflexivity|]. split; [reflexivity|].
  split; [apply touch_data|].
  unfold touch. rewrite Hrecord, Hres. cbn [expires passport_user].
  rewrite Hlive. cbn [sessionStore withSessions]. split.
  - rewrite store_get_set, String.eqb_refl. reflexivity.
  - intros k Hne. rewrite store_get_set.
    apply String.eqb_neq in Hne. rewrite Hne. reflexivity.
Qed.

Lemma login_then_current_user_witness :
  (now Demo.env4 <= now Sample.env3 + maxAge)%N
  /\ statusOf
       (snd (serve Sample.stream Demo.env4
               (fst (serve Sample.stream Sample.env3 Sample.st2
                       (PostLogin None (mkLogin "alice" "correct-pw"))))
               (GetUser (Some "sid-3"))))
     = Some 200.
Proof.
  split; [vm_compute; discriminate|].
  assert (Hc : consistent Sample.st2)
    by (apply consistent_serve, consistent_serve, consistent_new).
  assert (Hk : keyed Sample.st2)
    by (apply keyed_serve; [exact I|];
        apply keyed_serve; [exact I | apply keyed_new]).
  destruct (@login_then_current_user Sample.stream Sample.env3 Demo.env4
              Sample.st2 None (mkLogin "alice" "correct-pw") Sample.alice
              Hc Hk)
    as [_ [H _]].
  - vm_compute. reflexivity.
  - vm_compute. discriminate.
  - exact (f_equal statusOf H).
Defined.

(** ** Creating and updating users *)

Lemma find_app (A : Type) (pred : A -> bool) (l l' : list A) :
  find pred (l ++ l')%list
  = match find pred l with
    | Some x => Some x
    | None => find pred l'
    end.
Proof.
  induction l as [|x l IH]; cbn [app find].
  - reflexivity.
  - destruct (pred x); [reflexivity | exact IH].
Qed.

(** X13: [createUser] files the new user at the end of the map, under the
    id the counter held. Lookups by any other id are unchanged, and a
    lookup by username still returns the older user of that name if there
    was one: the new user is found by its username only if the name was
    free. *)
Theorem createUser_lookup (t : N) (st : MemStorage) (u : InsertUser.t) :
  consistent st ->
  users (fst (createUser t st u))
  = (users st ++ [(currentUserId st, snd (createUser t st u))])%list
  /\ User.id (snd (createUser t st u)) = currentUserId st
  /\ getUser (fst (createUser t st u)) (currentUserId st)
     = Some (snd (createUser t st u))
  /\ (forall k, k <> currentUserId st ->
        getUser (fst (createUser t st u)) k = getUser st k)
  /\ (forall name,
        getUserByUsername (fst (createUser t st u)) name
        = match getUserByUsername st name with
          | Some older => Some older
          | None =>
              if String.eqb (InsertUser.username u) name
              then Some (snd (createUser t st u))
              else None
          end).
Proof.
  intros [Hu _].
  assert (Happ : users (fst (createUser t st u))
                 = (users st ++ [(currentUserId st,
                                  snd (createUser t st u))])%list).
  { cbn [createUser fst snd users]. apply map_set_fresh, (tidy_fresh Hu). }
  repeat apply conj.
  - exact Happ.
  - reflexivity.
  - unfold getUser. cbn [createUser fst snd users]. apply map_get_set_same.
  - intros k Hk. unfold getUser. cbn [createUser fst snd users].
    apply map_get_set_other, Hk.
  - intros name. unfold getUserByUsername. rewrite Happ.
    unfold map_values. rewrite map_app, find_app. cbn [map snd find].
    destruct (find _ (map snd (users st))); [reflexivity|].
    cbn [createUser snd User.username]. reflexivity.
Qed.

Lemma createUser_lookup_witness :
  getUserByUsername (fst (createUser 5000 Sample.st2 Demo.alice2)) "alice"
  = getUserByUsername Sample.st2 "alice".
Proof.
  assert (Hc : consistent Sample.st2)
    by (apply consistent_serve, consistent_serve, consistent_new).
  destruct (@createUser_lookup 5000 Sample.st2 Demo.alice2 Hc)
    as [_ [_ [_ [_ H]]]].
  rewrite (H "alice"). vm_compute. reflexivity.
Defined.

(** X14: [POST /api/users] does not look for the username in the store. An
    admin's request with a body the schema accepts, under a username that
    is taken, is answered 201 and a second user of that name is filed
    under the next key, which was free; the older user stays filed where
    it was, and lookups by the username, and so every later login, still
    go to the older user. *)
Theorem postUsers_duplicate_username stream (env : Env) (st : MemStorage)
    (c : option string) (b : InsertUser.t) (admin : Express_User)
    (older : User.t) :
  consistent st ->
  resolveSession (now env) st c = Some admin ->
  User.role (user_record admin) = "admin" ->
  insertUserSchema b = true ->
  getUserByUsername st (InsertUser.username b) = Some older ->
  statusOf (snd (serve stream env st (PostUsers c b))) = Some 201
  /\ getUserByUsername (fst (serve stream env st (PostUsers c b)))
       (InsertUser.username b) = Some older
  /\ getUser st (currentUserId st) = None
  /\ (exists second,
        getUser (fst (serve stream env st (PostUsers c b))) (currentUserId st)
        = Some second
        /\ User.username second = InsertUser.username b
        /\ User.id second = currentUserId st
        /\ (keyed st -> User.id second <> User.id older))
  /\ (exists k,
        k < currentUserId st
        /\ getUser st k = Some older
        /\ getUser (fst (serve stream env st (PostUsers c b))) k = Some older).
Proof.
  intros Hc Hres Hrole Hvalid Holder.
  destruct (getUserByUsername_filed _ Hc Holder) as [k [Hget Hlt]].
  pose proof Hc as [Hu _].
  assert (Hfree : getUser st (currentUserId st) = None).
  { unfold getUser.
    destruct (map_get (currentUserId st) (users st)) as [v|] eqn:E;
      [|reflexivity].
    exfalso. apply (tidy_fresh Hu). apply map_get_keys. exists v. exact E. }
  unfold getUserByUsername, getUser.
  rewrite (proj1 (serve_data stream env st (PostUsers c b))).
  rewrite serve_answer.
  cbn [route]. unfold postUsers. cbn [behind].
  unfold isAuthenticated, req_isAuthenticated, hasRole, validateBody,
    passport_session. cbn [user body].
  rewrite Hres, Hrole, Hvalid. cbn [includes existsb String.eqb Ascii.eqb
                                      Bool.eqb orb negb].
  cbn [createUser createActivity fst snd statusOf status].
  split; [reflexivity|]. split; [|split; [exact Hfree|split]].
  - cbn [users].
    rewrite (@map_set_fresh _ _ _ _ (tidy_fresh Hu)).
    unfold map_values. rewrite map_app, find_app.
    unfold getUserByUsername, map_values in Holder. rewrite Holder.
    reflexivity.
  - eexists. repeat apply conj.
    + cbn [users]. apply map_get_set_same.
    + reflexivity.
    + reflexivity.
    + intros Hk. cbn [User.id]. rewrite (Hk k older Hget). lia.
  - exists k. split; [exact Hlt|]. split; [exact Hget|].
    cbn [users]. rewrite map_get_set_other by lia. exact Hget.
Qed.

Lemma postUsers_duplicate_username_witness :
  option_map User.id (getUserByUsername Sample.st2 "alice") = Some 1
  /\ insertUserSchema Demo.alice2 = true
  /\ option_map User.id
       (getUserByUsername
          (fst (serve Sample.stream Demo.env5 Sample.st2
                  (PostUsers (Some "sid-2") Demo.alice2)))
          "alice") = Some 1.
Proof.
  split; [vm_compute; reflexivity|].
  split; [reflexivity|].
  assert (Hc : consistent Sample.st2)
    by (apply consistent_serve, consistent_serve, consistent_new).
  destruct (@postUsers_duplicate_username Sample.stream Demo.env5 Sample.st2
              (Some "sid-2") Demo.alice2
              {| user_record :=
                   snd (createUser 2000 Sample.st1
                          (withPassword (reg_user Sample.rootBody)
                             (hashPassword Sample.stream Sample.ones
                                "root-pw")));
                 studentInfo := None |}
              (user_record Sample.alice) Hc)
    as [_ [H _]].
  - vm_compute. reflexivity.
  - reflexivity.
  - reflexivity.
  - vm_compute. reflexivity.
  - exact (f_equal (option_map User.id) H).
Defined.



(** ** Registrations that overlap *)

(** What the second half of a registration does to the users. *)
Lemma registerCommit_users (env : Env) (st : MemStorage)
    (req : Request RegisterBody) (digest : string) :
  statusOf (snd (registerCommit env st req digest)) = Some 201
  /\ users (fst (registerCommit env st req digest))
     = map_set (currentUserId st)
         (snd (createUser (now env) st
                 (withPassword (reg_user (body req)) digest)))
         (users st)
  /\ currentUserId (fst (registerCommit env st req digest))
     = S (currentUserId st).
Proof.
  unfold registerCommit. cbn [createUser].
  destruct (isStudent _);
    cbn [createStudent createActivity fst snd statusOf status];
    repeat split.
Qed.

(** X16: the registration route is not atomic. Its lookup of the username
    and its [createUser] are separated by the [await] of [hashPassword]:
    when a second registration under the same, new username arrives while
    the first is hashing, both pass the lookup, both are answered 201 and
    two users with that username are on file, under consecutive ids. Served
    one after the other, the second registration is answered 400. *)
Theorem register_not_atomic stream (env1 env2 : Env) (st : MemStorage)
    (c1 c2 : option string) (b1 b2 : RegisterBody) :
  getUserByUsername st (InsertUser.username (reg_user b1)) = None ->
  InsertUser.username (reg_user b2) = InsertUser.username (reg_user b1) ->
  let overlapped :=
    registerOverlapping stream env1 env2 st
      (passport_session (now env1) st c1 b1)
      (passport_session (now env2) st c2 b2) in
  statusOf (fst (snd overlapped)) = Some 201
  /\ statusOf (snd (snd overlapped)) = Some 201
  /\ (exists u1 u2,
        getUser (fst overlapped) (currentUserId st) = Some u1
        /\ getUser (fst overlapped) (S (currentUserId st)) = Some u2
        /\ User.username u1 = InsertUser.username (reg_user b1)
        /\ User.username u2 = InsertUser.username (reg_user b1))
  /\ statusOf
       (snd (serve stream env2
               (fst (serve stream env1 st (PostRegister c1 b1)))
               (PostRegister c2 b2)))
     = Some 400.
Proof.
  intros Hnew Hsame overlapped. subst overlapped.
  pose proof (@register_lookup stream env1 st c1 b1 Hnew) as Hfound.
  unfold registerOverlapping. cbn [body passport_session].
  rewrite Hsame, Hnew.
  match goal with
  | |- context [registerCommit env1 st ?req ?d] =>
      destruct (@registerCommit_users env1 st req d)
        as [Hs1 [Hu1 Hn1]];
      destruct (registerCommit env1 st req d) as [st1 answer1]
  end.
  cbn [fst snd] in Hs1, Hu1, Hn1.
  match goal with
  | |- context [registerCommit env2 st1 ?req ?d] =>
      destruct (@registerCommit_users env2 st1 req d)
        as [Hs2 [Hu2 Hn2]];
      destruct (registerCommit env2 st1 req d) as [st2 answer2]
  end.
  cbn [fst snd body passport_session] in *.
  split; [exact Hs1|]. split; [exact Hs2|]. split.
  - unfold getUser. rewrite Hu2, Hu1, Hn1.
    eexists. eexists.
    split; [rewrite map_get_set_other by lia; apply map_get_set_same|].
    split; [apply map_get_set_same|].
    split; [reflexivity | exact Hsame].
  - rewrite serve_answer. cbn [route]. unfold register.
    cbn [body passport_session]. rewrite Hsame, Hfound. reflexivity.
Qed.

Lemma register_not_atomic_witness :
  getUserByUsername Sample.st2 "carol" = None
  /\ map User.username
       (map_values
          (users
             (fst (registerOverlapping Sample.stream Demo.env4 Demo.env5
                     Sample.st2
                     (passport_session 4000 Sample.st2 None Demo.carolBody)
                     (passport_session 5000 Sample.st2 None Demo.carolBody)))))
     = ["alice"; "root"; "carol"; "carol"]
  /\ statusOf
       (snd (snd (registerOverlapping Sample.stream Demo.env4 Demo.env5
                    Sample.st2
                    (passport_session 4000 Sample.st2 None Demo.carolBody)
                    (passport_session 5000 Sample.st2 None Demo.carolBody))))
     = Some 201.
Proof.
  split; [reflexivity|].
  split; [vm_compute; reflexivity|].
  pose proof (@register_not_atomic Sample.stream Demo.env4 Demo.env5
                Sample.st2 None None Demo.carolBody Demo.carolBody
                eq_refl eq_refl) as H.
  cbv zeta in H. exact (proj1 (proj2 H)).
Defined.

(** ** Values of a map after a write *)

Lemma NoDup_map_values_set (V K : Type) (f : V -> K) (k : nat) (v : V)
    (m : JsMap V) :
  NoDup (map f (map_values m)) ->
  ~ In (f v) (map f (map_values m)) ->
  NoDup (map f (map_values (map_set k v m))).
Proof.
  induction m as [|[k' v'] m IH]; cbn [map_set map_values map snd];
    intros Hnd Hnew.
  - constructor; [intros [] | constructor].
  - inversion Hnd as [|x l Hnotin Hrest]; subst.
    destruct (Nat.eqb k k'); cbn [map_values map snd].
    + constructor; [|exact Hrest].
      intros Hin. apply Hnew. right. exact Hin.
    + constructor.
      * intros Hin. apply in_map_iff in Hin. destruct Hin as [x [Hfx Hx]].
        apply values_map_set in Hx. destruct Hx as [->|Hx].
        -- apply Hnew. left. symmetry. exact Hfx.
        -- apply Hnotin. rewrite <- Hfx. apply in_map, Hx.
      * apply IH; [exact Hrest|].
        intros Hin. apply Hnew. right. exact Hin.
Qed.

(** ** The activity log *)

(** X17: in a consistent store every call appends at most one activity to
    the log and leaves the activities already logged as they are. *)
Theorem activities_append_only stream (env : Env) (st : MemStorage)
    (call : ApiCall) :
  consistent st ->
  exists added,
    activities (fst (serve stream env st call))
    = (activities st ++ added)%list
    /\ List.length added <= 1.
Proof.
  intros [_ [_ Ha]].
  rewrite (proj1 (proj2 (proj2 (serve_data stream env st call)))).
  assert (Hnone : exists added : JsMap Activity.t,
             activities st = (activities st ++ added)%list
             /\ List.length added <= 1).
  { exists []. rewrite app_nil_r. split; [reflexivity | cbn; lia]. }
  assert (Hone : forall a : Activity.t,
             exists added,
               map_set (currentActivityId st) a (activities st)
               = (activities st ++ added)%list
               /\ List.length added <= 1).
  { intros a. exists [(currentActivityId st, a)]. split.
    - apply map_set_fresh, (tidy_fresh Ha).
    - cbn. lia. }
  destruct call as [c b|c b|c|c|c b|c id b]; cbn [route].
  - unfold register, registerCommit. cbn [body passport_session sessionID].
    destruct (getUserByUsername st _); [exact Hnone|].
    cbn [createUser]. destruct (isStudent _);
      cbn [createStudent createActivity fst snd activities req_login
           withSessions currentActivityId]; apply Hone.
  - unfold login. destruct (authenticate_local stream st _) as [[u|]|e];
      try exact Hnone.
    cbn [createActivity fst snd activities req_login withSessions
         currentActivityId]. apply Hone.
  - unfold logout. cbn [user sessionID passport_session fst].
    destruct (resolveSession _ _ _); [|exact Hnone].
    cbn [req_logout createActivity fst activities withSessions].
    apply Hone.
  - unfold getCurrentUser. destruct (user _); exact Hnone.
  - unfold postUsers. cbn [behind].
    destruct (isAuthenticated _); [|exact Hnone].
    destruct (hasRole _ _); [|exact Hnone].
    destruct (validateBody _ _); [|exact Hnone].
    cbn [createUser createActivity fst snd activities currentActivityId].
    apply Hone.
  - unfold patchUser. cbn [behind].
    destruct (isAuthenticated _); [|exact Hnone].
    destruct (hasRole _ _); [|exact Hnone].
    unfold updateUserWith. destruct (map_get id (users st)); [|exact Hnone].
    cbn [createActivity fst snd activities currentActivityId]. apply Hone.
Qed.

Lemma activities_append_only_witness :
  List.length (activities Sample.st2) = 2
  /\ exists added,
       activities (fst (serve Sample.stream Sample.env3 Sample.st2
                          (PostLogout (Some "sid-1"))))
       = (activities Sample.st2 ++ added)%list
       /\ List.length added <= 1.
Proof.
  split; [reflexivity|].
  apply activities_append_only.
  apply consistent_serve, consistent_serve, consistent_new.
Defined.

(** * Properties of the enrollment, grade and submission routes *)

Lemma In_values_map_set (V : Type) (k : nat) (v : V) (m : JsMap V) :
  In v (map_values (map_set k v m)).
Proof.
  induction m as [|[k' v'] m IH]; cbn [map_set map_values map snd In].
  - left. reflexivity.
  - destruct (Nat.eqb k k'); cbn [map_values map snd In].
    + left. reflexivity.
    + right. exact IH.
Qed.

(** No enrollment of the student in the course is found exactly when the
    pair is not among the enrolled pairs. *)
Lemma not_enrolled (a : Academic) (studentId courseId : nat) :
  find (fun e => Nat.eqb (Enrollment.courseId e) courseId)
       (listEnrollmentsByStudent a studentId) = None ->
  ~ In (studentId, courseId) (enrolledPairs a).
Proof.
  unfold listEnrollmentsByStudent, enrolledPairs. intros Hnone Hin.
  apply in_map_iff in Hin. destruct Hin as [e [Hpair He]].
  injection Hpair as Hs Hc.
  assert (Hfiltered :
            In e (filter (fun enrollment =>
                            Nat.eqb (Enrollment.studentId enrollment)
                                    studentId)
                         (map_values (enrollments a)))).
  { apply filter_In. split; [exact He | apply Nat.eqb_eq, Hs]. }
  pose proof (find_none _ _ Hnone e Hfiltered) as Hfalse. cbn beta in Hfalse.
  rewrite Hc, Nat.eqb_refl in Hfalse. discriminate.
Qed.

(** X18: [POST /api/enrollments] never enrolls a student in a course
    twice: when no (student, course) pair is on file twice before the
    call, none is after it. *)
Theorem postEnrollments_no_duplicates (env : Env) (sc : School)
    (req : Request InsertEnrollment.t) :
  NoDup (enrolledPairs (academic sc)) ->
  NoDup (enrolledPairs (academic (fst (postEnrollments env sc req)))).
Proof.
  intros Hnd. unfold postEnrollments. cbn [guarded].
  destruct (isAuthenticated req); [|exact Hnd].
  destruct (hasRole _ req); [|exact Hnd].
  destruct (validateBody _ req); [|exact Hnd].
  destruct (getStudent _ _); [|exact Hnd].
  destruct (getCourse _ _); [|exact Hnd].
  destruct (find _ _) eqn:Efind; [exact Hnd|].
  apply not_enrolled in Efind.
  assert (Hnew :
            NoDup (enrolledPairs
                     (fst (createEnrollment (now env) (academic sc)
                             (body req))))).
  { unfold enrolledPairs. cbn [createEnrollment fst enrollments].
    apply NoDup_map_values_set; [exact Hnd | exact Efind]. }
  cbn [createEnrollment createActivity] in *.
  destruct (user req); exact Hnew.
Qed.

Lemma postEnrollments_no_duplicates_witness :
  enrolledPairs
    (academic
       (fst (postEnrollments Demo.env5
               (fst (postEnrollments Demo.env5 Campus.school
                       (Campus.asRoot Campus.enrolCarol)))
               (Campus.asRoot Campus.enrolCarol)))) = [(1, 1)]
  /\ NoDup
       (enrolledPairs
          (academic
             (fst (postEnrollments Demo.env5
                     (fst (postEnrollments Demo.env5 Campus.school
                             (Campus.asRoot Campus.enrolCarol)))
                     (Campus.asRoot Campus.enrolCarol))))).
Proof.
  split; [vm_compute; reflexivity|].
  apply postEnrollments_no_duplicates, postEnrollments_no_duplicates.
  constructor.
Defined.

(** X19: [POST /api/enrollments] answers 201 only to an admin, for a
    student and a course that are on file and a pair that was not enrolled
    yet; the enrollment it answers with carries the pair of the body and
    the time of the call, and the pair is enrolled afterwards. *)
Theorem postEnrollments_created (env : Env) (sc : School)
    (req : Request InsertEnrollment.t) :
  s_status (snd (postEnrollments env sc req)) = 201 ->
  (exists admin, user req = Some admin
                 /\ User.role (user_record admin) = "admin")
  /\ getStudent (core sc) (InsertEnrollment.studentId (body req)) <> None
  /\ getCourse (academic sc) (InsertEnrollment.courseId (body req)) <> None
  /\ ~ In (InsertEnrollment.studentId (body req),
           InsertEnrollment.courseId (body req))
          (enrolledPairs (academic sc))
  /\ In (InsertEnrollment.studentId (body req),
         InsertEnrollment.courseId (body req))
        (enrolledPairs (academic (fst (postEnrollments env sc req))))
  /\ exists e,
       s_payload (snd (postEnrollments env sc req)) = PEnrollment e
       /\ Enrollment.studentId e = InsertEnrollment.studentId (body req)
       /\ Enrollment.courseId e = InsertEnrollment.courseId (body req)
       /\ Enrollment.enrollmentDate e = now env.
Proof.
  unfold postEnrollments. cbn [guarded].
  unfold isAuthenticated, req_isAuthenticated, hasRole, validateBody.
  destruct (user req) as [admin|]; [|discriminate].
  destruct (includes ["admin"] (User.role (user_record admin))) eqn:Erole;
    cbn [negb]; [|discriminate].
  destruct (insertEnrollmentSchema (body req)); [|discriminate].
  destruct (getStudent _ _) as [student|]; [|discriminate].
  destruct (getCourse _ _) as [course|]; [|discriminate].
  destruct (find _ _) eqn:Efind; [discriminate|].
  apply not_enrolled in Efind.
  cbn [createEnrollment createActivity fst snd s_status s_payload academic].
  intros _. repeat apply conj.
  - exists admin. split; [reflexivity|].
    apply includes_In in Erole. destruct Erole as [H|[]]. symmetry. exact H.
  - discriminate.
  - discriminate.
  - exact Efind.
  - unfold enrolledPairs. cbn [enrollments].
    apply in_map_iff. eexists. split; [|apply In_values_map_set].
    reflexivity.
  - eexists. repeat apply conj; reflexivity.
Qed.

Lemma postEnrollments_created_witness :
  s_status (snd (postEnrollments Demo.env5 Campus.school
                   (Campus.asRoot Campus.enrolCarol))) = 201
  /\ In (1, 1)
        (enrolledPairs
           (academic (fst (postEnrollments Demo.env5 Campus.school
                             (Campus.asRoot Campus.enrolCarol))))).
Proof.
  split; [vm_compute; reflexivity|].
  destruct (@postEnrollments_created Demo.env5 Campus.school
              (Campus.asRoot Campus.enrolCarol))
    as [_ [_ [_ [_ [H _]]]]].
  - vm_compute. reflexivity.
  - exact H.
Defined.

(** X20: [GET /api/students/:studentId/grades] writes nothing, and answers
    200 only with the grades filed for that student, each with its course
    as the store has it. A requester with the role ["student"] gets them
    only if the linked student profile is the one asked for. *)
Theorem getStudentGrades_own_only (sc : School) (studentId : nat)
    (req : Request unit) :
  fst (getStudentGrades sc studentId req) = sc
  /\ (s_status (snd (getStudentGrades sc studentId req)) = 200 ->
      (exists u,
         user req = Some u
         /\ (User.role (user_record u) = "student" ->
             exists info,
               studentInfo u = Some info /\ Student.id info = studentId))
      /\ getStudent (core sc) studentId <> None
      /\ exists enriched,
           s_payload (snd (getStudentGrades sc studentId req))
           = PGrades enriched
           /\ map fst enriched = listGradesByStudent (academic sc) studentId
           /\ forall grade course,
                In (grade, course) enriched ->
                Grade.studentId grade = studentId
                /\ course = getCourse (academic sc) (Grade.courseId grade)).
Proof.
  unfold getStudentGrades. cbn [guarded].
  unfold isAuthenticated, req_isAuthenticated.
  destruct (user req) as [u|]; [|split; [reflexivity | discriminate]].
  destruct (getStudent (core sc) studentId) as [student|];
    [|split; [reflexivity | discriminate]].
  destruct (isStudent (user_record u)) eqn:Erole; cbn [andb].
  - destruct (studentInfo u) as [info|] eqn:Einfo;
      [|split; [reflexivity | discriminate]].
    destruct (Nat.eqb_spec (Student.id info) studentId) as [Hid|Hid];
      cbn [negb]; [|split; [reflexivity | discriminate]].
    split; [reflexivity|]. intros _. cbn [snd s_payload]. repeat apply conj.
    + exists u. split; [reflexivity|]. intros _. exists info.
      split; [exact Einfo | exact Hid].
    + discriminate.
    + eexists. repeat apply conj; [reflexivity| |].
      * rewrite map_map. cbn [fst]. apply map_id.
      * intros grade course Hin. apply in_map_iff in Hin.
        destruct Hin as [g [Hpair Hg]]. inversion Hpair; subst.
        split; [|reflexivity].
        unfold listGradesByStudent in Hg. apply filter_In in Hg.
        destruct Hg as [_ Hg]. apply Nat.eqb_eq in Hg. exact Hg.
  - split; [reflexivity|]. intros _. cbn [snd s_payload]. repeat apply conj.
    + exists u. split; [reflexivity|]. intros Hrole.
      unfold isStudent in Erole. rewrite Hrole in Erole. discriminate.
    + discriminate.
    + eexists. repeat apply conj; [reflexivity| |].
      * rewrite map_map. cbn [fst]. apply map_id.
      * intros grade course Hin. apply in_map_iff in Hin.
        destruct Hin as [g [Hpair Hg]]. inversion Hpair; subst.
        split; [|reflexivity].
        unfold listGradesByStudent in Hg. apply filter_In in Hg.
        destruct Hg as [_ Hg]. apply Nat.eqb_eq in Hg. exact Hg.
Qed.

Lemma getStudentGrades_own_only_witness :
  s_status (snd (getStudentGrades Campus.school 1 (Campus.asCarol tt))) = 200
  /\ exists enriched,
       s_payload (snd (getStudentGrades Campus.school 1 (Campus.asCarol tt)))
       = PGrades enriched
       /\ map fst enriched = [Campus.carolsGrade].
Proof.
  split; [vm_compute; reflexivity|].
  destruct (proj2 (@getStudentGrades_own_only Campus.school 1
                     (Campus.asCarol tt)))
    as [_ [_ [enriched [Hpayload [Hgrades _]]]]].
  - vm_compute. reflexivity.
  - exists enriched. split; [exact Hpayload | exact Hgrades].
Defined.

(** X21: [POST /api/submissions] by an authenticated user, with a valid
    body, answers 201 and files the submission under the next id with the
    time of the call. For a student with a linked profile the submission
    is filed under the id of that profile, whatever student the body
    names; for every other user (a student without profile too) it is
    filed under the student the body names. *)
Theorem postSubmissions_student_own (env : Env) (sc : School)
    (req : Request InsertSubmission.t) (u : Express_User) :
  user req = Some u ->
  insertSubmissionSchema (body req) = true ->
  exists submission,
    snd (postSubmissions env sc req)
    = {| s_status := 201; s_payload := PSubmission submission |}
    /\ map_get (currentSubmissionId (academic sc))
         (submissions (academic (fst (postSubmissions env sc req))))
       = Some submission
    /\ Submission.submissionDate submission = now env
    /\ Submission.assignmentId submission
       = InsertSubmission.assignmentId (body req)
    /\ (forall info,
          User.role (user_record u) = "student" ->
          studentInfo u = Some info ->
          Submission.studentId submission = Student.id info)
    /\ (User.role (user_record u) <> "student" \/ studentInfo u = None ->
        Submission.studentId submission
        = InsertSubmission.studentId (body req)).
Proof.
  intros Hu Hvalid. unfold postSubmissions. cbn [guarded].
  unfold isAuthenticated, req_isAuthenticated, validateBody.
  rewrite Hu, Hvalid. unfold isStudent.
  destruct (String.eqb_spec (User.role (user_record u)) "student")
    as [Hrole|Hrole];
    destruct (studentInfo u) as [info|];
    cbn [createSubmission createActivity fst snd academic submissions];
    eexists; (repeat apply conj);
    try reflexivity; try apply map_get_set_same.
  - intros info' _ Hinfo. inversion Hinfo. reflexivity.
  - intros [H|H]; [contradiction | discriminate].
  - intros info' _ Hinfo. discriminate.
  - intros info' H. contradiction.
  - intros info' H. contradiction.
Qed.

Lemma postSubmissions_student_own_witness :
  InsertSubmission.studentId Campus.homework = 2
  /\ exists submission,
       snd (postSubmissions Demo.env5 Campus.school
              (Campus.asCarol Campus.homework))
       = {| s_status := 201; s_payload := PSubmission submission |}
       /\ Submission.studentId submission = 1.
Proof.
  split; [reflexivity|].
  destruct (@postSubmissions_student_own Demo.env5 Campus.school
              (Campus.asCarol Campus.homework) Campus.carol)
    as [submission [Hanswer [_ [_ [_ [Hown _]]]]]].
  - vm_compute. reflexivity.
  - reflexivity.
  - exists submission. split; [exact Hanswer|].
    exact (Hown Campus.carolProfile eq_refl eq_refl).
Defined.

(** * Properties of the activity listing *)

Lemma insertNewest_perm (x : Activity.t) (l : list Activity.t) :
  Permutation (x :: l) (insertNewest x l).
Proof.
  induction l as [|y l IH]; cbn [insertNewest].
  - apply Permutation_refl.
  - destruct (N.leb _ _).
    + apply Permutation_refl.
    + apply perm_trans with (y :: x :: l); [apply perm_swap|].
      apply perm_skip, IH.
Qed.

Lemma newestFirst_perm (l : list Activity.t) : Permutation l (newestFirst l).
Proof.
  induction l as [|x l IH]; cbn [newestFirst fold_right].
  - apply perm_nil.
  - apply perm_trans with (x :: newestFirst l);
      [apply perm_skip, IH | apply insertNewest_perm].
Qed.

Lemma insertNewest_sorted (x : Activity.t) (l : list Activity.t) :
  StronglySorted notOlder l -> StronglySorted notOlder (insertNewest x l).
Proof.
  induction l as [|y l IH]; cbn [insertNewest]; intros Hs.
  - constructor; [constructor | constructor].
  - inversion Hs as [|y' l' Hrest Hall]; subst.
    destruct (N.leb_spec (Activity.timestamp y) (Activity.timestamp x))
      as [Hle|Hgt].
    + constructor; [exact Hs|]. constructor; [exact Hle|].
      eapply Forall_impl; [|exact Hall].
      intros z Hz. unfold notOlder in *. lia.
    + constructor; [apply IH, Hrest|].
      apply Forall_forall. intros z Hz.
      apply (Permutation_in z (Permutation_sym (insertNewest_perm x l)))
        in Hz.
      destruct Hz as [->|Hz]; [unfold notOlder; lia|].
      rewrite Forall_forall in Hall. apply Hall, Hz.
Qed.

Lemma newestFirst_sorted (l : list Activity.t) :
  StronglySorted notOlder (newestFirst l).
Proof.
  induction l as [|x l IH]; cbn [newestFirst fold_right].
  - constructor.
  - apply insertNewest_sorted, IH.
Qed.

Lemma in_firstn (A : Type) (k : nat) (l : list A) (x : A) :
  In x (firstn k l) -> In x l.
Proof.
  revert l. induction k as [|k IH]; intros [|y l]; cbn [firstn In];
    try contradiction.
  intros [H|H]; [left; exact H | right; apply IH, H].
Qed.

Lemma in_skipn (A : Type) (k : nat) (l : list A) (x : A) :
  In x (skipn k l) -> In x l.
Proof.
  revert l. induction k as [|k IH]; intros [|y l]; cbn [skipn In];
    try contradiction; try (intros H; exact H).
  intros H. right. apply IH, H.
Qed.

Lemma firstn_sorted (k : nat) (l : list Activity.t) :
  StronglySorted notOlder l -> StronglySorted notOlder (firstn k l).
Proof.
  revert l. induction k as [|k IH]; intros [|x l] Hs; cbn [firstn];
    try constructor.
  - inversion Hs; subst. apply IH. assumption.
  - inversion Hs as [|x' l' Hrest Hall]; subst.
    apply Forall_forall. intros z Hz. rewrite Forall_forall in Hall.
    apply Hall, (in_firstn _ _ _ Hz).
Qed.

Lemma firstn_newest (k : nat) (l : list Activity.t) :
  StronglySorted notOlder l ->
  forall a b, In a (firstn k l) -> In b (skipn k l) -> notOlder a b.
Proof.
  revert l. induction k as [|k IH]; intros l Hs a b Ha Hb.
  - contradiction.
  - destruct l as [|x l]; [contradiction|].
    inversion Hs as [|x' l' Hrest Hall]; subst.
    cbn [firstn skipn In] in Ha, Hb. destruct Ha as [->|Ha].
    + rewrite Forall_forall in Hall. apply Hall.
      apply (in_skipn _ _ _ Hb).
    + apply (IH l Hrest a b Ha Hb).
Qed.

(** X22: [listRecentActivities] with a limit that is not negative (10 when
    none is given) returns the activities of the log with the latest
    timestamps, latest first: as many as the limit allows, all of them from
    the log, in descending order of timestamp, and none of those left out
    is later than one returned. *)
Theorem listRecentActivities_newest (st : MemStorage) (limit : option Z) :
  (0 <= or_else limit 10)%Z ->
  List.length (listRecentActivities st limit)
  = Nat.min (Z.to_nat (or_else limit 10%Z)) (List.length (activities st))
  /\ StronglySorted notOlder (listRecentActivities st limit)
  /\ (forall a, In a (listRecentActivities st limit) ->
        In a (map_values (activities st)))
  /\ exists omitted,
       Permutation (map_values (activities st))
                   (listRecentActivities st limit ++ omitted)
       /\ forall a b, In a (listRecentActivities st limit) ->
                      In b omitted -> notOlder a b.
Proof.
  intros Hlimit. unfold listRecentActivities, slice0.
  destruct (Z.ltb_spec (or_else limit 10%Z) 0) as [Hneg|_]; [lia|].
  set (k := Z.to_nat (or_else limit 10%Z)).
  set (log := map_values (activities st)).
  pose proof (newestFirst_perm log) as Hperm.
  pose proof (newestFirst_sorted log) as Hsorted.
  repeat apply conj.
  - rewrite length_firstn, <- (Permutation_length Hperm).
    unfold log, map_values. rewrite length_map. reflexivity.
  - apply firstn_sorted, Hsorted.
  - intros a Ha. apply (Permutation_in a (Permutation_sym Hperm)).
    apply (in_firstn _ _ _ Ha).
  - exists (skipn k (newestFirst log)). split.
    + rewrite firstn_skipn. exact Hperm.
    + intros a b. apply firstn_newest, Hsorted.
Qed.

Lemma listRecentActivities_newest_witness :
  (0 <= or_else (Some 2%Z) 10)%Z
  /\ map Activity.activityType (listRecentActivities Sample.st3 (Some 2%Z))
     = ["USER_CREATED"; "USER_REGISTERED"]
  /\ List.length (listRecentActivities Sample.st3 (Some 2%Z)) = 2.
Proof.
  split; [vm_compute; discriminate|]. split; [vm_compute; reflexivity|].
  rewrite (proj1 (@listRecentActivities_newest Sample.st3 (Some 2%Z)
                    ltac:(vm_compute; discriminate))).
  reflexivity.
Defined.
